(** * passport-soundcloud-token: the token strategy, embedded and verified

    The repository holds two implementations of one passport strategy:
    the class-based one ([src/index.js]) and the older prototype-based one.
    Both are callback-driven JavaScript.  They are embedded here in
    continuation-passing style: every function of the source ends in exactly
    one call (to [this.fail], [this.error], [this.success], [this._verify],
    [this._oauth2.get], [done] ...), so a function is modelled by the answer
    of the call it ends in, over an arbitrary answer type [R].  The functions
    the strategy is handed (the outcomes, the verify callback, the transport,
    [done]) are taken to return normally; what the strategy's own code can
    throw is modelled, with the try blocks that catch it. *)

From Stdlib Require Import String Ascii List ZArith Bool DecimalString.
Import ListNotations.
Local Open Scope string_scope.
Local Set Warnings "-register-all".

(** ** JavaScript values and the operators the strategy uses *)

Module JS.

(** Plain data as it reaches the strategy: request sections, tokens, parsed
    JSON, error objects.  An object keeps its properties in insertion order.
    Numbers are only ever tested for truthiness here, so an integer stands
    for the number (zero stands for the falsy numbers). *)
Inductive value : Type :=
| VUndefined
| VNull
| VBool (b : bool)
| VNumber (n : Z)
| VString (s : string)
| VArray (elems : list value)
| VObject (props : list (string * value)).

(** Completion of an expression that may throw. *)
Inductive result (A : Type) : Type :=
| Ok (a : A)
| Throw (e : value).
Arguments Ok {A} a.
Arguments Throw {A} e.

Definition ret {A} (a : A) : result A := Ok a.

Definition bind {A B} (m : result A) (f : A -> result B) : result B :=
  match m with
  | Ok a => f a
  | Throw e => Throw e
  end.

Declare Scope js_scope.
Delimit Scope js_scope with js.
Notation "x <- m ;; k" := (bind m (fun x => k))
  (at level 61, m at next level, right associativity) : js_scope.

(** [try { m } catch (e) { h e }] *)
Definition try_catch {A} (m : result A) (h : value -> A) : A :=
  match m with
  | Ok a => a
  | Throw e => h e
  end.

(** ToBoolean. *)
Definition truthy (v : value) : bool :=
  match v with
  | VUndefined | VNull => false
  | VBool b => b
  | VNumber n => negb (n =? 0)%Z
  | VString s => negb (s =? "")
  | VArray _ | VObject _ => true
  end.

(** [a && b] and [a || b]; the right operand is evaluated only when the left
    one does not decide. *)
Definition js_and (a b : result value) : result value :=
  bind a (fun x => if truthy x then b else ret x).

Definition js_or (a b : result value) : result value :=
  bind a (fun x => if truthy x then ret x else b).

Notation "a &&& b" := (js_and a b) (at level 40, left associativity) : js_scope.
Notation "a ||| b" := (js_or a b) (at level 50, left associativity) : js_scope.

(** The error thrown on a property read from [undefined] or [null], and on a
    call of something that is not a function. *)
Definition TypeError : value := VObject [("name", VString "TypeError")].

Fixpoint lookup (k : string) (props : list (string * value)) : option value :=
  match props with
  | [] => None
  | (k', v) :: rest => if k =? k' then Some v else lookup k rest
  end.

Definition string_of_nat (n : nat) : string :=
  NilEmpty.string_of_uint (Nat.to_uint n).

(** A property key that is a canonical array index. *)
Definition index_of_key (k : string) : option nat :=
  match NilEmpty.uint_of_string k with
  | Some u => let n := Nat.of_uint u in
              if string_of_nat n =? k then Some n else None
  | None => None
  end.

Definition or_undefined (o : option value) : value :=
  match o with
  | Some v => v
  | None => VUndefined
  end.

Definition char_at (s : string) (n : nat) : option value :=
  match String.get n s with
  | Some c => Some (VString (String c EmptyString))
  | None => None
  end.

(** A built-in function or prototype object.  The strategy can come by one
    only through an inherited property, and then only tests it for
    truthiness and hands it on; it is kept as an object that records which
    built-in it is. *)
Definition native (name : string) : value :=
  VObject [("[[BuiltIn]]", VString name)].

(** The method names of the built-in prototypes (ECMAScript 2024 with its
    annex B).  Every value that is not [undefined] or [null] inherits those
    of Object.prototype; arrays, strings, numbers and booleans first those
    of their own prototype. *)
Definition object_methods : list string :=
  ["toString"; "toLocaleString"; "valueOf"; "hasOwnProperty";
   "isPrototypeOf"; "propertyIsEnumerable"; "__defineGetter__";
   "__defineSetter__"; "__lookupGetter__"; "__lookupSetter__"].

Definition array_methods : list string :=
  ["at"; "concat"; "copyWithin"; "entries"; "every"; "fill"; "filter";
   "find"; "findIndex"; "findLast"; "findLastIndex"; "flat"; "flatMap";
   "forEach"; "includes"; "indexOf"; "join"; "keys"; "lastIndexOf"; "map";
   "pop"; "push"; "reduce"; "reduceRight"; "reverse"; "shift"; "slice";
   "some"; "sort"; "splice"; "toLocaleString"; "toReversed"; "toSorted";
   "toSpliced"; "toString"; "unshift"; "values"; "with"].

Definition string_methods : list string :=
  ["at"; "charAt"; "charCodeAt"; "codePointAt"; "concat"; "endsWith";
   "includes"; "indexOf"; "isWellFormed"; "lastIndexOf"; "localeCompare";
   "match"; "matchAll"; "normalize"; "padEnd"; "padStart"; "repeat";
   "replace"; "replaceAll"; "search"; "slice"; "split"; "startsWith";
   "substring"; "toLocaleLowerCase"; "toLocaleUpperCase"; "toLowerCase";
   "toString"; "toUpperCase"; "toWellFormed"; "trim"; "trimEnd";
   "trimStart"; "valueOf"; "anchor"; "big"; "blink"; "bold"; "fixed";
   "fontcolor"; "fontsize"; "italics"; "link"; "small"; "strike"; "sub";
   "substr"; "sup"; "trimLeft"; "trimRight"].

Definition number_methods : list string :=
  ["toExponential"; "toFixed"; "toLocaleString"; "toPrecision"; "toString";
   "valueOf"].

Definition boolean_methods : list string := ["toString"; "valueOf"].

(** The constructor of a value and the methods of its prototype. *)
Definition prototype_of (o : value) : option (string * list string) :=
  match o with
  | VUndefined | VNull => None
  | VBool _ => Some ("Boolean", boolean_methods)
  | VNumber _ => Some ("Number", number_methods)
  | VString _ => Some ("String", string_methods)
  | VArray _ => Some ("Array", array_methods)
  | VObject _ => Some ("Object", [])
  end.

Definition among (k : string) (names : list string) : bool :=
  existsb (String.eqb k) names.

(** The property [k] that [o] finds on its prototype chain. *)
Definition inherited (o : value) (k : string) : option value :=
  match prototype_of o with
  | None => None
  | Some (constructor, methods) =>
      if k =? "constructor" then Some (native constructor)
      else if k =? "__proto__" then Some (native (constructor ++ ".prototype"))
      else if among k methods
      then Some (native (constructor ++ ".prototype." ++ k))
      else if among k object_methods
      then Some (native ("Object.prototype." ++ k))
      else None
  end.

(** The own property [k] of [o]: a property of an object, the length and
    the elements of an array, the length and the characters of a string. *)
Definition own (o : value) (k : string) : option value :=
  match o with
  | VUndefined | VNull | VBool _ | VNumber _ => None
  | VString s =>
      if k =? "length" then Some (VNumber (Z.of_nat (String.length s)))
      else match index_of_key k with
           | Some n => char_at s n
           | None => None
           end
  | VArray l =>
      if k =? "length" then Some (VNumber (Z.of_nat (List.length l)))
      else match index_of_key k with
           | Some n => nth_error l n
           | None => None
           end
  | VObject props => lookup k props
  end.

(** [o[k]] and [o.k]: the own property, else the inherited one, else
    [undefined].  Reading from [undefined] or [null] throws.  Objects are
    ordinary objects, whose prototype is Object.prototype. *)
Definition member (o : value) (k : string) : result value :=
  match o with
  | VUndefined | VNull => Throw TypeError
  | _ => Ok (match own o k with
             | Some v => v
             | None => or_undefined (inherited o k)
             end)
  end.

(** [s.split(c)] for a one-character separator: cut at every occurrence. *)
Fixpoint split_char (c : ascii) (s : string) : list string :=
  match s with
  | EmptyString => [EmptyString]
  | String a rest =>
      if Ascii.eqb a c then EmptyString :: split_char c rest
      else match split_char c rest with
           | piece :: pieces => String a piece :: pieces
           | [] => [String a EmptyString]
           end
  end.

(** [v.split(' ', 2)]: the first two pieces at most.  On a string this is
    String.prototype.split.  No other value has a [split] to call: no other
    built-in prototype defines one, and an own property of parsed data is
    data, not a function. *)
Definition call_split (v : value) : result value :=
  match v with
  | VString s => Ok (VArray (map VString (firstn 2 (split_char " " s))))
  | _ => Throw TypeError
  end.

End JS.

(** ** What the strategy is given by passport and passport-oauth *)

Module Passport.
Import JS.

(** The sections of the incoming request that the strategy reads. *)
Record request : Type := {
  body : value;
  query : value;
  headers : value
}.

(** One positional argument of the application's verify callback. *)
Inductive arg (R : Type) : Type :=
| AReq (req : request)
| AVal (v : value)
| ADone (k : value -> value -> value -> R).
Arguments AReq {R} req.
Arguments AVal {R} v.
Arguments ADone {R} k.

(** The members of [this] that the strategy calls and does not define:
    the three outcomes passport attaches for each request, the verify
    callback kept by the OAuth2Strategy constructor, and OAuth2Strategy's
    [_loadUserProfile]. *)
Class Host (R : Type) : Type := {
  this_fail : value -> R;
  this_error : value -> R;
  this_success : value -> value -> R;
  _verify : list (arg R) -> R;
  _loadUserProfile : value -> (value -> value -> R) -> R
}.

(** [this._oauth2.get(url, accessToken, callback)]. *)
Class OAuth2 (R : Type) : Type := {
  _oauth2_get : string -> value -> (value -> value -> value -> R) -> R
}.

(** [JSON.parse]; it returns the parsed value or throws. *)
Class Runtime : Type := {
  JSON_parse : value -> result value
}.

(** [new InternalOAuthError(message, err)] of passport-oauth keeps its two
    arguments. *)
Definition InternalOAuthError (message err : value) : value :=
  VObject [("name", VString "InternalOAuthError");
           ("message", message);
           ("oauthError", err)].

(** [options.x || d] for an optional string option. *)
Definition or_default (o : option string) (d : string) : string :=
  match o with
  | Some s => if s =? "" then d else s
  | None => d
  end.

End Passport.

(** ** The class-based strategy, [src/index.js] *)

Module ClassStrategy.
Import JS Passport.
Local Open Scope js_scope.

Record Options : Type := {
  clientID : value;
  clientSecret : value;
  authorizationURL : option string;
  tokenURL : option string;
  profileURL : option string;
  accessTokenField : option string;
  refreshTokenField : option string;
  passReqToCallback : value
}.

Definition no_options : Options :=
  {| clientID := VUndefined; clientSecret := VUndefined;
     authorizationURL := None; tokenURL := None; profileURL := None;
     accessTokenField := None; refreshTokenField := None;
     passReqToCallback := VUndefined |}.

(** The fields the constructor sets on [this]. *)
Record Strategy : Type := {
  name : string;
  _accessTokenField : string;
  _refreshTokenField : string;
  _profileURL : string;
  _passReqToCallback : value
}.

Section Construction.

(** The verify callback, as the constructor is handed it, and
    [super(options, verify)], the constructor of passport-oauth's
    OAuth2Strategy: it returns, or throws when it misses something (a
    verify callback, a client id). *)
Variable Verify : Type.
Variable OAuth2Strategy : Options -> option Verify -> result unit.

(** [new SoundCloudTokenStrategy(_options, _verify)].  The two URLs are
    defaulted on the options object first, which [super] then receives.
    Telling the OAuth2 client to send the token in the authorization header
    concerns the transport alone. *)
Definition constructor (_options : option Options) (_verify : option Verify)
  : result Strategy :=
  let options := match _options with Some o => o | None => no_options end in
  let verify := _verify in
  let options :=
    {| clientID := clientID options;
       clientSecret := clientSecret options;
       authorizationURL :=
         Some (or_default (authorizationURL options)
                          "https://soundcloud.com/connect");
       tokenURL :=
         Some (or_default (tokenURL options)
                          "https://api.soundcloud.com/oauth2/token");
       profileURL := profileURL options;
       accessTokenField := accessTokenField options;
       refreshTokenField := refreshTokenField options;
       passReqToCallback := passReqToCallback options |} in
  _ <- OAuth2Strategy options verify ;;
  ret {| name := "soundcloud-token";
         _accessTokenField :=
           or_default (accessTokenField options) "access_token";
         _refreshTokenField :=
           or_default (refreshTokenField options) "refresh_token";
         _profileURL :=
           or_default (profileURL options)
                      "https://api.soundcloud.com/me.json";
         _passReqToCallback := passReqToCallback options |}.

End Construction.

(** [(req.body && req.body[field]) || (req.query && req.query[field])],
    the expression both token variables are initialised with. *)
Definition tokenFrom (req : request) (field : string) : result value :=
  (ret (body req) &&& member (body req) field)
  ||| (ret (query req) &&& member (query req) field).

(** The try block of the success path: parse the body, build the profile. *)
Definition parseProfile `{Runtime} (body : value) : result value :=
  json <- JSON_parse body ;;
  id <- member json "id" ;;
  username <- member json "username" ;;
  displayName <- (member json "full_name" ||| ret (VString "")) ;;
  familyName <-
    (full_name <- member json "full_name" ;;
     if truthy full_name
     then (full_name <- member json "full_name" ;;
           parts <- call_split full_name ;;
           member parts "1")
     else ret (VString "")) ;;
  givenName <-
    (full_name <- member json "full_name" ;;
     if truthy full_name
     then (full_name <- member json "full_name" ;;
           parts <- call_split full_name ;;
           member parts "0")
     else ret (VString "")) ;;
  avatar <- (member json "avatar_url" ||| ret (VString "")) ;;
  ret (VObject [("provider", VString "soundcloud");
                ("id", id);
                ("username", username);
                ("displayName", displayName);
                ("name", VObject [("familyName", familyName);
                                  ("givenName", givenName)]);
                ("emails", VArray []);
                ("photos", VArray [VObject [("value", avatar)]]);
                ("_raw", body);
                ("_json", json)]).

Section Strategy.
Context {R : Type} `{Host R} `{OAuth2 R} `{Runtime}.
Variable self : Strategy.

(** The completion handed to the verify callback. *)
Definition verified (error user info : value) : R :=
  if truthy error then this_error error
  else if negb (truthy user) then this_fail info
  else this_success user info.

(** The callback handed to [_loadUserProfile]. *)
Definition loaded (req : request) (accessToken refreshToken : value)
    (error profile : value) : R :=
  if truthy error then this_error error
  else if truthy (_passReqToCallback self)
  then _verify [AReq req; AVal accessToken; AVal refreshToken; AVal profile;
                ADone verified]
  else _verify [AVal accessToken; AVal refreshToken; AVal profile;
                ADone verified].

Definition authenticate (req : request) (options : value) : result R :=
  accessToken <- tokenFrom req (_accessTokenField self) ;;
  refreshToken <- tokenFrom req (_refreshTokenField self) ;;
  if negb (truthy accessToken)
  then ret (this_fail
              (VObject [("message",
                         VString ("You should provide "
                                  ++ _accessTokenField self))]))
  else ret (_loadUserProfile accessToken (loaded req accessToken refreshToken)).

(** The callback handed to [this._oauth2.get].  [done(e)] passes no profile:
    the callee sees [undefined]. *)
Definition fetched (done : value -> value -> R) (error body res : value) : R :=
  if truthy error
  then try_catch
         (errorJSON <- (data <- member error "data" ;; JSON_parse data) ;;
          errors <- member errorJSON "errors" ;;
          first <- member errors "0" ;;
          error_message <- member first "error_message" ;;
          statusCode <- member error "statusCode" ;;
          ret (done (InternalOAuthError error_message statusCode) VUndefined))
         (fun _ =>
            done (InternalOAuthError (VString "Failed to fetch user profile")
                                     error)
                 VUndefined)
  else try_catch
         (profile <- parseProfile body ;;
          ret (done VNull profile))
         (fun e => done e VUndefined).

Definition userProfile (accessToken : value) (done : value -> value -> R) : R :=
  _oauth2_get (_profileURL self) accessToken (fetched done).

End Strategy.
End ClassStrategy.

(** ** The prototype-based strategy (the older implementation) *)

Module LegacyStrategy.
Import JS Passport.
Local Open Scope js_scope.

Record Options : Type := {
  clientID : value;
  clientSecret : value;
  authorizationURL : option string;
  tokenURL : option string;
  profileURL : option string;
  passReqToCallback : value
}.

Definition no_options : Options :=
  {| clientID := VUndefined; clientSecret := VUndefined;
     authorizationURL := None; tokenURL := None; profileURL := None;
     passReqToCallback := VUndefined |}.

Record Strategy : Type := {
  name : string;
  _profileURL : string;
  _passReqToCallback : value
}.

Section Construction.

(** The verify callback and [OAuth2Strategy.call(this, options, verify)],
    which returns or throws. *)
Variable Verify : Type.
Variable OAuth2Strategy : Options -> option Verify -> result unit.


End Construction.

(** [(req.body && req.body.f) || (req.query && req.query.f)
     || (req.headers && req.headers.f)], with [f] written out in the source
    as [access_token] and as [refresh_token]. *)
Definition tokenFrom (req : request) (field : string) : result value :=
  (ret (body req) &&& member (body req) field)
  ||| (ret (query req) &&& member (query req) field)
  ||| (ret (headers req) &&& member (headers req) field).

(** The try block of the success path: parse the body, build the profile. *)
Definition parseProfile `{Runtime} (body : value) : result value :=
  json <- JSON_parse body ;;
  id <- member json "id" ;;
  username <- member json "username" ;;
  displayName <- (member json "full_name" ||| ret (VString "")) ;;
  familyName <-
    (full_name <- member json "full_name" ;;
     if truthy full_name
     then (full_name <- member json "full_name" ;;
           parts <- call_split full_name ;;
           member parts "1")
     else ret (VString "")) ;;
  givenName <-
    (full_name <- member json "full_name" ;;
     if truthy full_name
     then (full_name <- member json "full_name" ;;
           parts <- call_split full_name ;;
           member parts "0")
     else ret (VString "")) ;;
  avatar <- (member json "avatar_url" ||| ret (VString "")) ;;
  ret (VObject [("provider", VString "soundcloud");
                ("id", id);
                ("username", username);
                ("displayName", displayName);
                ("name", VObject [("familyName", familyName);
                                  ("givenName", givenName)]);
                ("emails", VArray []);
                ("photos", VArray [VObject [("value", avatar)]]);
                ("_raw", body);
                ("_json", json)]).

Section Strategy.
Context {R : Type} `{Host R} `{OAuth2 R} `{Runtime}.
Variable self : Strategy.

Definition verified (error user info : value) : R :=
  if truthy error then this_error error
  else if negb (truthy user) then this_fail info
  else this_success user info.

Definition loaded (req : request) (accessToken refreshToken : value)
    (error profile : value) : R :=
  if truthy error then this_error error
  else if truthy (_passReqToCallback self)
  then _verify [AReq req; AVal accessToken; AVal refreshToken; AVal profile;
                ADone verified]
  else _verify [AVal accessToken; AVal refreshToken; AVal profile;
                ADone verified].

Definition authenticate (req : request) (options : value) : result R :=
  accessToken <- tokenFrom req "access_token" ;;
  refreshToken <- tokenFrom req "refresh_token" ;;
  if negb (truthy accessToken)
  then ret (this_fail
              (VObject [("message", VString "You should provide access_token")]))
  else ret (_loadUserProfile accessToken (loaded req accessToken refreshToken)).

Definition fetched (done : value -> value -> R) (error body res : value) : R :=
  if truthy error
  then done (InternalOAuthError (VString "Failed to fetch user profile") error)
            VUndefined
  else try_catch
         (profile <- parseProfile body ;;
          ret (done VNull profile))
         (fun e => done e VUndefined).

Definition userProfile (accessToken : value) (done : value -> value -> R) : R :=
  _oauth2_get (_profileURL self) accessToken (fetched done).

End Strategy.
End LegacyStrategy.

(** ** A reader of JSON text, to run the strategy on concrete bodies

    The strategy is verified against any [Runtime].  This one reads the JSON
    texts whose numbers are integers and whose strings use the short escapes
    only, and rejects every other text. *)

Module JsonText.
Import JS Passport.

Definition dquote : ascii := "034"%char.
Definition backslash : ascii := "092"%char.

Definition is_ws (c : ascii) : bool :=
  Ascii.eqb c " " || Ascii.eqb c "009" || Ascii.eqb c "010" || Ascii.eqb c "013".

Definition is_digit (c : ascii) : bool :=
  (48 <=? nat_of_ascii c)%nat && (nat_of_ascii c <=? 57)%nat.

Fixpoint skip_ws (l : list ascii) : list ascii :=
  match l with
  | c :: rest => if is_ws c then skip_ws rest else l
  | [] => []
  end.

Definition unescape (c : ascii) : option ascii :=
  if Ascii.eqb c dquote then Some dquote
  else if Ascii.eqb c backslash then Some backslash
  else if Ascii.eqb c "/" then Some "/"%char
  else if Ascii.eqb c "b" then Some "008"%char
  else if Ascii.eqb c "f" then Some "012"%char
  else if Ascii.eqb c "n" then Some "010"%char
  else if Ascii.eqb c "r" then Some "013"%char
  else if Ascii.eqb c "t" then Some "009"%char
  else None.

(** The characters of a string literal, after its opening quote. *)
Fixpoint string_body (l : list ascii) : option (string * list ascii) :=
  match l with
  | [] => None
  | c :: rest =>
      if Ascii.eqb c dquote then Some (EmptyString, rest)
      else if Ascii.eqb c backslash then
        match rest with
        | e :: rest' =>
            match unescape e, string_body rest' with
            | Some d, Some (s, tail) => Some (String d s, tail)
            | _, _ => None
            end
        | [] => None
        end
      else if (nat_of_ascii c <? 32)%nat then None
      else match string_body rest with
           | Some (s, tail) => Some (String c s, tail)
           | None => None
           end
  end.

Fixpoint digits (l : list ascii) (acc : Z) : Z * list ascii :=
  match l with
  | c :: rest =>
      if is_digit c
      then digits rest (acc * 10 + Z.of_nat (nat_of_ascii c - 48))%Z
      else (acc, l)
  | [] => (acc, [])
  end.

Definition starts_with (p : ascii -> bool) (l : list ascii) : bool :=
  match l with
  | c :: _ => p c
  | [] => false
  end.

Definition unsigned (l : list ascii) : option (Z * list ascii) :=
  match l with
  | c :: rest =>
      if negb (is_digit c) then None
      else if Ascii.eqb c "0" && starts_with is_digit rest then None
      else let '(n, tail) := digits l 0%Z in
           if starts_with (fun d => Ascii.eqb d "." || Ascii.eqb d "e"
                                    || Ascii.eqb d "E") tail
           then None
           else Some (n, tail)
  | [] => None
  end.

Definition number (l : list ascii) : option (value * list ascii) :=
  match l with
  | "-"%char :: rest =>
      match unsigned rest with
      | Some (n, tail) => Some (VNumber (- n), tail)
      | None => None
      end
  | _ =>
      match unsigned l with
      | Some (n, tail) => Some (VNumber n, tail)
      | None => None
      end
  end.

(** A repeated key keeps its place and takes the later value. *)
Fixpoint set_prop (k : string) (v : value) (props : list (string * value))
  : list (string * value) :=
  match props with
  | [] => [(k, v)]
  | (k', v') :: rest =>
      if k =? k' then (k, v) :: rest else (k', v') :: set_prop k v rest
  end.

Fixpoint parse_value (fuel : nat) (l : list ascii)
  : option (value * list ascii) :=
  match fuel with
  | O => None
  | S fuel =>
      match skip_ws l with
      | "{"%char :: rest =>
          match skip_ws rest with
          | "}"%char :: tail => Some (VObject [], tail)
          | rest' => parse_members fuel rest' []
          end
      | "["%char :: rest =>
          match skip_ws rest with
          | "]"%char :: tail => Some (VArray [], tail)
          | rest' => parse_elements fuel rest' []
          end
      | "t"%char :: "r"%char :: "u"%char :: "e"%char :: tail =>
          Some (VBool true, tail)
      | "f"%char :: "a"%char :: "l"%char :: "s"%char :: "e"%char :: tail =>
          Some (VBool false, tail)
      | "n"%char :: "u"%char :: "l"%char :: "l"%char :: tail =>
          Some (VNull, tail)
      | c :: rest =>
          if Ascii.eqb c dquote
          then match string_body rest with
               | Some (s, tail) => Some (VString s, tail)
               | None => None
               end
          else number (c :: rest)
      | [] => None
      end
  end
with parse_members (fuel : nat) (l : list ascii) (acc : list (string * value))
  : option (value * list ascii) :=
  match fuel with
  | O => None
  | S fuel =>
      match skip_ws l with
      | c :: rest =>
          if negb (Ascii.eqb c dquote) then None
          else match string_body rest with
               | Some (k, after_key) =>
                   match skip_ws after_key with
                   | ":"%char :: after_colon =>
                       match parse_value fuel after_colon with
                       | Some (v, after_value) =>
                           match skip_ws after_value with
                           | ","%char :: tail =>
                               parse_members fuel tail (set_prop k v acc)
                           | "}"%char :: tail =>
                               Some (VObject (set_prop k v acc), tail)
                           | _ => None
                           end
                       | None => None
                       end
                   | _ => None
                   end
               | None => None
               end
      | [] => None
      end
  end
with parse_elements (fuel : nat) (l : list ascii) (acc : list value)
  : option (value * list ascii) :=
  match fuel with
  | O => None
  | S fuel =>
      match parse_value fuel l with
      | Some (v, after_value) =>
          match skip_ws after_value with
          | ","%char :: tail => parse_elements fuel tail (acc ++ [v])
          | "]"%char :: tail => Some (VArray (acc ++ [v]), tail)
          | _ => None
          end
      | None => None
      end
  end.

Definition parse (s : string) : option value :=
  let l := list_ascii_of_string s in
  match parse_value (2 * List.length l + 2) l with
  | Some (v, tail) =>
      match skip_ws tail with
      | [] => Some v
      | _ :: _ => None
      end
  | None => None
  end.

Definition string_of_Z (n : Z) : string :=
  NilEmpty.string_of_int (Z.to_int n).

Fixpoint join (sep : string) (l : list string) : string :=
  match l with
  | [] => ""
  | [s] => s
  | s :: rest => s ++ sep ++ join sep rest
  end.

(** ToString, which [JSON.parse] applies to its argument. *)
Fixpoint to_string (v : value) : string :=
  match v with
  | VUndefined => "undefined"
  | VNull => "null"
  | VBool true => "true"
  | VBool false => "false"
  | VNumber n => string_of_Z n
  | VString s => s
  | VArray l =>
      join "," (map (fun x => match x with
                              | VUndefined | VNull => ""
                              | _ => to_string x
                              end) l)
  | VObject _ => "[object Object]"
  end.

Definition SyntaxError : value := VObject [("name", VString "SyntaxError")].

#[export] Instance runtime : Runtime := {|
  JSON_parse v :=
    match parse (to_string v) with
    | Some j => Ok j
    | None => Throw SyntaxError
    end
|}.

(** The provider JSON of the worked example, and its text. *)
Definition example_json : value :=
  VObject [("id", VString "3207");
           ("full_name", VString "Johannes Wagener");
           ("avatar_url", VString "http://example/img.jpg")].

Definition q (s : string) : string :=
  String dquote s ++ String dquote EmptyString.

Definition example_body : string :=
  "{" ++ q "id" ++ ":" ++ q "3207" ++ ","
      ++ q "full_name" ++ ":" ++ q "Johannes Wagener" ++ ","
      ++ q "avatar_url" ++ ":" ++ q "http://example/img.jpg" ++ "}".

(** [{"full_name": <name>}] as text. *)
Definition named (full_name : string) : string :=
  "{" ++ q "full_name" ++ ":" ++ q full_name ++ "}".

(** A provider error body, [{"errors":[{"error_message": <message>}]}]. *)
Definition provider_error (message : string) : string :=
  "{" ++ q "errors" ++ ":[{" ++ q "error_message" ++ ":" ++ q message ++ "}]}".

End JsonText.

(** ** Observing a run: a host and a transport that record what is called *)

Module Harness.
Import JS Passport.

(** What the transport passes to its callback. *)
Record response : Type := {
  r_error : value;
  r_body : value;
  r_res : value
}.

Inductive seen : Type :=
| SReq (req : request)
| SVal (v : value)
| SDone.

Inductive event : Type :=
| EFail (info : value)
| EError (e : value)
| ESuccess (user info : value)
| EGet (url : string) (accessToken : value)
| EVerify (args : list seen).

Definition trace : Type := list event.

Definition see {R} (a : arg R) : seen :=
  match a with
  | AReq req => SReq req
  | AVal v => SVal v
  | ADone _ => SDone
  end.

(** The completion among the arguments of a verify call (the last one). *)
Fixpoint completion {R} (args : list (arg R))
  : option (value -> value -> value -> R) :=
  match args with
  | [] => None
  | a :: rest =>
      match completion rest with
      | Some k => Some k
      | None => match a with
                | ADone k => Some k
                | _ => None
                end
      end
  end.

(** A transport that answers at once with [respond url accessToken]. *)
Definition recording_oauth2 (respond : string -> value -> response)
  : OAuth2 trace :=
  {| _oauth2_get url accessToken callback :=
       EGet url accessToken
       :: (let r := respond url accessToken in
           callback (r_error r) (r_body r) (r_res r)) |}.

(** A host whose verify callback completes at once with [decide args]. *)
Definition recording_host
    (load : value -> (value -> value -> trace) -> trace)
    (decide : list seen -> value * value * value) : Host trace :=
  {| this_fail info := [EFail info];
     this_error e := [EError e];
     this_success user info := [ESuccess user info];
     _verify args :=
       EVerify (map see args)
       :: match completion args with
          | Some k => let '(e, user, info) := decide (map see args) in
                      k e user info
          | None => []
          end;
     _loadUserProfile := load |}.

(** The terminal state a request ends in. *)
Inductive outcome : Type :=
| Failed (info : value)
| Errored (e : value)
| Succeeded (user info : value)
| Pending.

(** A host that answers with the outcome it is told, and whose verify
    callback completes at once with [decide]; a verify call that is handed no
    completion leaves the request pending. *)
Definition outcome_host
    (load : value -> (value -> value -> outcome) -> outcome)
    (decide : value * value * value) : Host outcome :=
  {| this_fail := Failed;
     this_error := Errored;
     this_success := Succeeded;
     _verify args :=
       match completion args with
       | Some k => let '(e, user, info) := decide in k e user info
       | None => Pending
       end;
     _loadUserProfile := load |}.

(** A host whose [_loadUserProfile] is [load]: OAuth2Strategy calls
    [this.userProfile] there, unless the application opts out of profiles. *)
Definition delegating {R : Type} (host : Host R)
    (load : value -> (value -> value -> R) -> R) : Host R :=
  {| this_fail := this_fail;
     this_error := this_error;
     this_success := this_success;
     _verify := _verify;
     _loadUserProfile := load |}.

(** A transport that calls back at once with the given arguments. *)
Definition answering {R : Type} (error body res : value) : OAuth2 R :=
  {| _oauth2_get _ _ callback := callback error body res |}.

(** A transport with a state of its own, threaded through the calls. *)
Definition stateful_oauth2 {S A : Type}
    (stub : S -> string -> value -> S * response) : OAuth2 (S -> A) :=
  {| _oauth2_get url accessToken callback :=
       fun s => let '(s', r) := stub s url accessToken in
                callback (r_error r) (r_body r) (r_res r) s' |}.

(** The stub answers alike whatever its state. *)
Definition deterministic {S : Type}
    (stub : S -> string -> value -> S * response) : Prop :=
  forall s s' url accessToken,
    snd (stub s url accessToken) = snd (stub s' url accessToken).

(** Call [userProfile] and, once it is done, call it again; answer with what
    the two calls handed to [done]. *)
Definition twice {S : Type}
    (userProfile :
       value ->
       (value -> value -> S -> (value * value) * (value * value)) ->
       S -> (value * value) * (value * value))
    (accessToken : value) (s : S) : (value * value) * (value * value) :=
  userProfile accessToken
    (fun e1 p1 =>
       userProfile accessToken (fun e2 p2 _ => ((e1, p1), (e2, p2))))
    s.

(** A request whose body carries the given fields, and nothing else. *)
Definition request_with_body (props : list (string * value)) : request :=
  {| body := VObject props; query := VUndefined; headers := VUndefined |}.

(** A stub that counts its calls and always answers with the same body. *)
Definition counting_stub (body : value) (n : nat) (_ : string) (_ : value)
  : nat * response :=
  (S n, {| r_error := VNull; r_body := body; r_res := VNull |}).

(** The events that end a request. *)
Definition is_outcome (e : event) : bool :=
  match e with
  | EFail _ | EError _ | ESuccess _ _ => true
  | EGet _ _ | EVerify _ => false
  end.

(** What a run under a recording host and a recording transport can look
    like: no token and a fail; a fetch that ends in an error; a fetch, a
    verify call and one outcome. *)
Definition run_shape (url : string) (accessToken reason : value)
    (run : result trace) : Prop :=
  (truthy accessToken = false /\ run = Ok [EFail reason])
  \/ (truthy accessToken = true
      /\ exists e, run = Ok [EGet url accessToken; EError e])
  \/ (truthy accessToken = true
      /\ exists args o,
          run = Ok [EGet url accessToken; EVerify args; o]
          /\ is_outcome o = true).

(** The strategies the tests construct: the defaults, with and without
    [passReqToCallback]. *)
Definition class_strategy : ClassStrategy.Strategy :=
  {| ClassStrategy.name := "soundcloud-token";
     ClassStrategy._accessTokenField := "access_token";
     ClassStrategy._refreshTokenField := "refresh_token";
     ClassStrategy._profileURL := "https://api.soundcloud.com/me.json";
     ClassStrategy._passReqToCallback := VUndefined |}.

Definition class_strategy_with_request : ClassStrategy.Strategy :=
  {| ClassStrategy.name := "soundcloud-token";
     ClassStrategy._accessTokenField := "access_token";
     ClassStrategy._refreshTokenField := "refresh_token";
     ClassStrategy._profileURL := "https://api.soundcloud.com/me.json";
     ClassStrategy._passReqToCallback := VBool true |}.

Definition legacy_strategy : LegacyStrategy.Strategy :=
  {| LegacyStrategy.name := "soundcloud-token";
     LegacyStrategy._profileURL := "https://api.soundcloud.com/me.json";
     LegacyStrategy._passReqToCallback := VUndefined |}.




(** The fixtures of the test suite: a verify callback that answers
    [next(null, profile, {info: 'foo'})], a transport that delivers the
    example profile, and the two tokens. *)
Definition app (args : list seen) : value * value * value :=
  match args with
  | [SVal _; SVal _; SVal profile; SDone]
  | [SReq _; SVal _; SVal _; SVal profile; SDone] =>
      (VNull, profile, VObject [("info", VString "foo")])
  | _ => (VNull, VUndefined, VUndefined)
  end.

Definition transport : OAuth2 trace :=
  recording_oauth2
    (fun _ _ => {| r_error := VNull;
                   r_body := VString JsonText.example_body;
                   r_res := VNull |}).

Definition tokens : list (string * value) :=
  [("access_token", VString "access_token");
   ("refresh_token", VString "refresh_token")].

Definition in_headers : request :=
  {| body := VUndefined; query := VUndefined; headers := VObject tokens |}.

End Harness.

(** ** The words of the specification *)

Module Spec.
Import JS Passport.

(** What reading property [field] of [section] gives; nothing when there is
    no value to read from. *)
Definition section_field (section : value) (field : string) : value :=
  match member section field with
  | Ok v => v
  | Throw _ => VUndefined
  end.

(** The value of a field in a section of the request, as the lookup
    [section[field]] finds it; absent when the section is missing (falsy). *)
Definition request_field (section : value) (field : string) : value :=
  if truthy section then section_field section field else VUndefined.

Definition empty_or_absent (v : value) : bool :=
  match v with
  | VUndefined | VNull => true
  | VString s => s =? ""
  | _ => false
  end.

(** "First non-empty value", over the candidates in precedence order. *)
Definition first_non_empty (candidates : list value) : option value :=
  find truthy candidates.

(** [v] is what extraction of [field] from [sections] yields: the first
    non-empty candidate, and nothing usable when there is none. *)
Definition extracted (v : value) (sections : list value) (field : string)
  : Prop :=
  match first_non_empty (map (fun s => request_field s field) sections) with
  | Some w => v = w
  | None => truthy v = false
  end.

Definition is_space (c : ascii) : bool :=
  Ascii.eqb c " " || Ascii.eqb c "009" || Ascii.eqb c "010"
  || Ascii.eqb c "011" || Ascii.eqb c "012" || Ascii.eqb c "013".

Fixpoint drop_spaces (s : string) : string :=
  match s with
  | String c rest => if is_space c then drop_spaces rest else s
  | EmptyString => EmptyString
  end.

(** "Splits into exactly two name parts on the first whitespace run":
    the text before the run, and all the text after it. *)
Fixpoint split_first_whitespace_run (s : string) : string * string :=
  match s with
  | EmptyString => (EmptyString, EmptyString)
  | String c rest =>
      if is_space c then (EmptyString, drop_spaces rest)
      else let '(given, family) := split_first_whitespace_run rest in
           (String c given, family)
  end.

(** What the code does instead: cut at single space characters. *)
Fixpoint before_space (s : string) : string :=
  match s with
  | EmptyString => EmptyString
  | String c rest =>
      if Ascii.eqb c " " then EmptyString else String c (before_space rest)
  end.

Fixpoint after_space (s : string) : option string :=
  match s with
  | EmptyString => None
  | String c rest => if Ascii.eqb c " " then Some rest else after_space rest
  end.

(** The outcome passport is told for a completion [(error, user, info)]. *)
Definition signalled {R : Type} `{Host R} (error user info : value) : R :=
  if truthy error then this_error error
  else if truthy user then this_success user info
  else this_fail info.

(** The reason given when no access token is found. *)
Definition missing_token (field : string) : value :=
  VObject [("message", VString ("You should provide " ++ field))].

(** Reading a nested property, for statements about the profile. *)
Fixpoint path (v : value) (keys : list string) : result value :=
  match keys with
  | [] => Ok v
  | k :: rest => bind (member v k) (fun w => path w rest)
  end.

Definition nullish (v : value) : bool :=
  match v with
  | VUndefined | VNull => true
  | _ => false
  end.

Definition is_string (v : value) : bool :=
  match v with
  | VString _ => true
  | _ => false
  end.

Fixpoint has_space (s : string) : bool :=
  match s with
  | EmptyString => false
  | String c rest => Ascii.eqb c " " || has_space rest
  end.

(** The profile object, given the parts that vary. *)
Definition profile_of (raw json displayName familyName givenName : value)
  : value :=
  VObject [("provider", VString "soundcloud");
           ("id", section_field json "id");
           ("username", section_field json "username");
           ("displayName", displayName);
           ("name", VObject [("familyName", familyName);
                             ("givenName", givenName)]);
           ("emails", VArray []);
           ("photos",
            VArray [VObject
                      [("value",
                        if truthy (section_field json "avatar_url")
                        then section_field json "avatar_url"
                        else VString "")]]);
           ("_raw", raw);
           ("_json", json)].

(** The second piece of a name cut at its spaces, if there is one. *)
Definition second_piece (s : string) : value :=
  match after_space s with
  | Some rest => VString (before_space rest)
  | None => VUndefined
  end.

(** What the try block of the success path comes to, case by case. *)
Definition profile_cases (raw json : value) : result value :=
  if nullish json then Throw TypeError
  else match section_field json "full_name" with
       | VString s =>
           if s =? "" then
             Ok (profile_of raw json (VString "") (VString "") (VString ""))
           else
             Ok (profile_of raw json (VString s) (second_piece s)
                            (VString (before_space s)))
       | full_name =>
           if truthy full_name then Throw TypeError
           else Ok (profile_of raw json (VString "") (VString "") (VString ""))
       end.

(** The richer wrap of a transport error: parse the data attached to it
    and take the provider's message and the status code from it. *)
Definition diagnostics `{Runtime} (error : value) : result value :=
  bind (member error "data") (fun data =>
  bind (JSON_parse data) (fun errorJSON =>
  bind (path errorJSON ["errors"; "0"; "error_message"]) (fun message =>
  bind (member error "statusCode") (fun statusCode =>
  ret (InternalOAuthError message statusCode))))).

(** The uniform wrap of a transport error. *)
Definition uniform_wrap (error : value) : value :=
  InternalOAuthError (VString "Failed to fetch user profile") error.

End Spec.

(** * Properties *)

Module C := ClassStrategy.
Module L := LegacyStrategy.
Import JS Passport Harness Spec.

(** ** Reading a field out of the request sections *)

Section Extraction.
Local Open Scope js_scope.

Lemma truthy_string (s : string) : truthy (VString s) = true <-> s <> "".
Proof.
  simpl. destruct (String.eqb_spec s ""); simpl; split; congruence.
Qed.

Lemma empty_or_absent_falsy (v : value) :
  empty_or_absent v = true -> truthy v = false.
Proof.
  destruct v; simpl; try congruence.
  intros ->. reflexivity.
Qed.

Lemma member_truthy (v : value) (k : string) :
  truthy v = true -> member v k = Ok (section_field v k).
Proof.
  unfold section_field. destruct v; simpl; congruence.
Qed.

Lemma request_field_truthy (v : value) (k : string) :
  truthy v = true -> request_field v k = section_field v k.
Proof. intros Hv. unfold request_field. now rewrite Hv. Qed.

Lemma request_field_falsy (v : value) (k : string) :
  truthy v = false -> truthy (request_field v k) = false.
Proof. intros Hv. unfold request_field. now rewrite Hv. Qed.

(** One section consulted, with more to consult after it. *)
Lemma consult_or (s : value) (f : string) (k : result value) :
  (ret s &&& member s f) ||| k
  = if truthy (request_field s f) then Ok (request_field s f) else k.
Proof.
  unfold js_or, js_and, ret, bind.
  destruct (truthy s) eqn:Hs.
  - rewrite (member_truthy _ _ Hs), (request_field_truthy _ _ Hs).
    destruct (truthy (section_field s f)); reflexivity.
  - rewrite Hs, (request_field_falsy _ f Hs). reflexivity.
Qed.

(** The last section consulted. *)
Lemma consult_last (s : value) (f : string) :
  exists x, (ret s &&& member s f) = Ok x
            /\ truthy x = truthy (request_field s f)
            /\ (truthy x = true -> x = request_field s f).
Proof.
  unfold js_and, ret, bind.
  destruct (truthy s) eqn:Hs.
  - rewrite (member_truthy _ _ Hs), (request_field_truthy _ _ Hs). eauto.
  - exists s. rewrite (request_field_falsy _ f Hs). repeat split; congruence.
Qed.

Lemma js_or_Ok_truthy (v : value) (k : result value) :
  truthy v = true -> (Ok v ||| k) = Ok v.
Proof. intros Hv. unfold js_or, bind, ret. now rewrite Hv. Qed.

Lemma class_tokenFrom_extracted (req : request) (f : string) :
  exists v, C.tokenFrom req f = Ok v
            /\ extracted v [body req; query req] f.
Proof.
  unfold C.tokenFrom, extracted, first_non_empty.
  rewrite consult_or. cbn [map find].
  destruct (truthy (request_field (body req) f)) eqn:Hb; [eauto|].
  destruct (consult_last (query req) f) as (x & Hx & Ht & Heq).
  exists x. split; [exact Hx|].
  destruct (truthy (request_field (query req) f)); auto.
Qed.

Lemma legacy_tokenFrom_extracted (req : request) (f : string) :
  exists v, L.tokenFrom req f = Ok v
            /\ extracted v [body req; query req; headers req] f.
Proof.
  unfold L.tokenFrom, extracted, first_non_empty.
  rewrite consult_or. cbn [map find].
  destruct (truthy (request_field (body req) f)) eqn:Hb.
  { rewrite js_or_Ok_truthy by exact Hb. eauto. }
  rewrite consult_or.
  destruct (truthy (request_field (query req) f)) eqn:Hq; [eauto|].
  destruct (consult_last (headers req) f) as (x & Hx & Ht & Heq).
  exists x. split; [exact Hx|].
  destruct (truthy (request_field (headers req) f)); auto.
Qed.

(** No candidate is usable when the field is empty or absent everywhere. *)
Lemma extracted_nowhere (v : value) (sections : list value) (f : string) :
  Forall (fun s => empty_or_absent (request_field s f) = true) sections ->
  extracted v sections f -> truthy v = false.
Proof.
  unfold extracted, first_non_empty.
  induction 1 as [|s rest Hs _ IH]; simpl; [auto|].
  rewrite (empty_or_absent_falsy _ Hs). exact IH.
Qed.

End Extraction.

(** ** The three outcomes of a request *)

Section Outcomes.
Context {R : Type} {host : Host R}.

Lemma class_verified_signalled (error user info : value) :
  C.verified error user info = signalled error user info.
Proof.
  unfold C.verified, signalled.
  destruct (truthy error); [reflexivity|].
  destruct (truthy user); reflexivity.
Qed.

Lemma legacy_verified_signalled (error user info : value) :
  L.verified error user info = signalled error user info.
Proof.
  unfold L.verified, signalled.
  destruct (truthy error); [reflexivity|].
  destruct (truthy user); reflexivity.
Qed.

Lemma class_loaded_verify (self : C.Strategy) (req : request)
    (accessToken refreshToken error profile : value) :
  truthy error = false ->
  C.loaded self req accessToken refreshToken error profile
  = _verify (if truthy (C._passReqToCallback self)
             then [AReq req; AVal accessToken; AVal refreshToken;
                   AVal profile; ADone C.verified]
             else [AVal accessToken; AVal refreshToken; AVal profile;
                   ADone C.verified]).
Proof.
  intros He. unfold C.loaded. rewrite He.
  destruct (truthy (C._passReqToCallback self)); reflexivity.
Qed.

Lemma legacy_loaded_verify (self : L.Strategy) (req : request)
    (accessToken refreshToken error profile : value) :
  truthy error = false ->
  L.loaded self req accessToken refreshToken error profile
  = _verify (if truthy (L._passReqToCallback self)
             then [AReq req; AVal accessToken; AVal refreshToken;
                   AVal profile; ADone L.verified]
             else [AVal accessToken; AVal refreshToken; AVal profile;
                   ADone L.verified]).
Proof.
  intros He. unfold L.loaded. rewrite He.
  destruct (truthy (L._passReqToCallback self)); reflexivity.
Qed.

(** C1.  Whenever the verify callback calls its completion with
    [(error, user, info)], the request ends as follows, in both
    implementations: with the error outcome carrying [error] itself when
    [error] is present (truthy); else with the fail outcome carrying [info]
    when [user] is falsy; else with the success outcome carrying
    [(user, info)].  This holds of the completion [verified] itself and of
    the run that reaches it after a successful profile retrieval. *)
Theorem verified_three_outcomes
    (selfC : C.Strategy) (selfL : L.Strategy) (req : request)
    (accessToken refreshToken profile error user info : value)
    (Hverify : forall args k,
        completion args = Some k -> _verify args = k error user info) :
  let outcome :=
    if truthy error then this_error error
    else if truthy user then this_success user info
    else this_fail info in
  C.verified error user info = outcome
  /\ L.verified error user info = outcome
  /\ C.loaded selfC req accessToken refreshToken VNull profile = outcome
  /\ L.loaded selfL req accessToken refreshToken VNull profile = outcome.
Proof.
  cbv zeta. fold (signalled error user info).
  repeat split.
  - apply class_verified_signalled.
  - apply legacy_verified_signalled.
  - rewrite class_loaded_verify by reflexivity.
    rewrite (Hverify _ C.verified).
    + apply class_verified_signalled.
    + destruct (truthy (C._passReqToCallback selfC)); reflexivity.
  - rewrite legacy_loaded_verify by reflexivity.
    rewrite (Hverify _ L.verified).
    + apply legacy_verified_signalled.
    + destruct (truthy (L._passReqToCallback selfL)); reflexivity.
Qed.

End Outcomes.

Lemma verified_three_outcomes_witness :
  @C.loaded outcome
     (outcome_host (fun _ _ => Pending) (VNull, VBool false, VString "unknown"))
     class_strategy (request_with_body [])
     (VString "T") (VString "R") VNull (VObject [])
  = Failed (VString "unknown").
Proof.
  refine (proj1 (proj2 (proj2
    (@verified_three_outcomes outcome
       (outcome_host (fun _ _ => Pending)
                     (VNull, VBool false, VString "unknown"))
       class_strategy legacy_strategy
       (request_with_body [])
       (VString "T") (VString "R") (VObject [])
       VNull (VBool false) (VString "unknown") _)))).
  intros args k Hk. simpl. rewrite Hk. reflexivity.
Defined.

(** ** A request without an access token *)

Section MissingToken.

Lemma class_authenticate_unfold {R : Type} {host : Host R}
    (self : C.Strategy) (req : request) (options accessToken refreshToken : value) :
  C.tokenFrom req (C._accessTokenField self) = Ok accessToken ->
  C.tokenFrom req (C._refreshTokenField self) = Ok refreshToken ->
  C.authenticate self req options
  = Ok (if truthy accessToken
        then _loadUserProfile accessToken
               (C.loaded self req accessToken refreshToken)
        else this_fail (missing_token (C._accessTokenField self))).
Proof.
  intros Ha Hr. unfold C.authenticate. rewrite Ha. cbn [bind].
  rewrite Hr. cbn [bind].
  destruct (truthy accessToken); reflexivity.
Qed.

Lemma legacy_authenticate_unfold {R : Type} {host : Host R}
    (self : L.Strategy) (req : request) (options accessToken refreshToken : value) :
  L.tokenFrom req "access_token" = Ok accessToken ->
  L.tokenFrom req "refresh_token" = Ok refreshToken ->
  L.authenticate self req options
  = Ok (if truthy accessToken
        then _loadUserProfile accessToken
               (L.loaded self req accessToken refreshToken)
        else this_fail (missing_token "access_token")).
Proof.
  intros Ha Hr. unfold L.authenticate. rewrite Ha. cbn [bind].
  rewrite Hr. cbn [bind].
  destruct (truthy accessToken); reflexivity.
Qed.

(** C2.  When the access-token field is empty or absent in every section
    the implementation consults (body and query; the legacy one also
    headers), authenticate ends in the fail outcome with the reason
    [{message: "You should provide <accessTokenField>"}], which under the
    default field name reads "You should provide access_token".  It does so
    for every host, so neither the profile retrieval nor the verify callback
    takes part; a recording host sees the one fail event and nothing else.
    The field of a section is what the lookup [section[field]] finds, an
    own property or an inherited one; no built-in prototype has an
    [access_token], so under the default name, which the constructor sets
    when the option is not given, it is the section's own property. *)
Theorem missing_access_token_fails (req : request) (options : value) :
  (forall self : C.Strategy,
      Forall (fun s => empty_or_absent
                         (request_field s (C._accessTokenField self)) = true)
             [body req; query req] ->
      (forall (R : Type) (host : Host R),
          C.authenticate self req options
          = Ok (this_fail
                  (VObject [("message",
                             VString ("You should provide "
                                      ++ C._accessTokenField self))])))
      /\ (forall load decide,
             @C.authenticate trace (recording_host load decide)
                             self req options
             = Ok [EFail (VObject
                            [("message",
                              VString ("You should provide "
                                       ++ C._accessTokenField self))])]))
  /\ (forall self : L.Strategy,
         Forall (fun s => empty_or_absent
                            (request_field s "access_token") = true)
                [body req; query req; headers req] ->
         (forall (R : Type) (host : Host R),
             L.authenticate self req options
             = Ok (this_fail
                     (VObject [("message",
                                VString "You should provide access_token")])))
         /\ (forall load decide,
                @L.authenticate trace (recording_host load decide)
                                self req options
                = Ok [EFail (VObject
                               [("message",
                                 VString "You should provide access_token")])]))
  /\ (forall section, inherited section "access_token" = None)
  /\ (forall (Verify : Type) OAuth2Strategy (o : C.Options)
             (verify : option Verify) (self : C.Strategy),
         C.accessTokenField o = None ->
         C.constructor Verify OAuth2Strategy (Some o) verify = Ok self ->
         C._accessTokenField self = "access_token").
Proof.
  split; [|split; [|split]]; cycle 2.
  { intros section. destruct section; reflexivity. }
  { intros Verify OAuth2Strategy o verify self Hnone. unfold C.constructor.
    cbn [C.accessTokenField C.passReqToCallback C.profileURL
         C.refreshTokenField].
    destruct (OAuth2Strategy _ verify); cbn [bind ret]; [|discriminate].
    intros [= <-]. cbn [C._accessTokenField]. now rewrite Hnone. }
  - intros self Hnone.
    destruct (class_tokenFrom_extracted req (C._accessTokenField self))
      as (a & Ha & Hea).
    destruct (class_tokenFrom_extracted req (C._refreshTokenField self))
      as (r & Hr & _).
    pose proof (extracted_nowhere _ _ _ Hnone Hea) as Hfalsy.
    assert (Hall : forall (R : Type) (host : Host R),
               C.authenticate self req options
               = Ok (this_fail (missing_token (C._accessTokenField self)))).
    { intros R host.
      rewrite (class_authenticate_unfold self req options a r Ha Hr).
      now rewrite Hfalsy. }
    split; [exact Hall|].
    intros load decide. exact (Hall trace (recording_host load decide)).
  - intros self Hnone.
    destruct (legacy_tokenFrom_extracted req "access_token") as (a & Ha & Hea).
    destruct (legacy_tokenFrom_extracted req "refresh_token") as (r & Hr & _).
    pose proof (extracted_nowhere _ _ _ Hnone Hea) as Hfalsy.
    assert (Hall : forall (R : Type) (host : Host R),
               L.authenticate self req options
               = Ok (this_fail (missing_token "access_token"))).
    { intros R host.
      rewrite (legacy_authenticate_unfold self req options a r Ha Hr).
      now rewrite Hfalsy. }
    split; [exact Hall|].
    intros load decide. exact (Hall trace (recording_host load decide)).
Qed.

End MissingToken.

Lemma missing_access_token_fails_witness :
  let req := request_with_body [("access_token", VString "");
                                ("refresh_token", VString "R")] in
  Forall (fun s => empty_or_absent (request_field s "access_token") = true)
         [body req; query req; headers req]
  /\ @C.authenticate trace
        (recording_host (fun _ _ => []) (fun _ => (VNull, VNull, VNull)))
        class_strategy req VUndefined
      = Ok [EFail (VObject [("message",
                             VString "You should provide access_token")])]
  /\ @L.authenticate trace
        (recording_host (fun _ _ => []) (fun _ => (VNull, VNull, VNull)))
        legacy_strategy req VUndefined
      = Ok [EFail (VObject [("message",
                             VString "You should provide access_token")])].
Proof.
  intros req.
  destruct (missing_access_token_fails req VUndefined) as (Hc & Hl & _).
  assert (Hnone : Forall (fun s => empty_or_absent
                                     (request_field s "access_token") = true)
                         [body req; query req; headers req])
    by (repeat constructor).
  split; [exact Hnone|]. split.
  - apply (Hc class_strategy). repeat constructor.
  - apply (Hl legacy_strategy). exact Hnone.
Defined.

(** ** Token extraction *)

Section Tokens.

(** C3.  For every request, the access token and the refresh token that
    authenticate works with are each the first non-empty (truthy) value of
    the configured field in the sections taken in the order body, query
    (then headers, in the legacy implementation, whose field names are
    [access_token] and [refresh_token]); when no section has one, the token
    is unusable (falsy).  The refresh token plays no part in what follows:
    with a usable access token the profile is retrieved whatever the refresh
    token is, so its absence is no error.  The field names are lookup keys:
    in a section that is an object the field is its own property of that
    name when it has one, and else what the object inherits under that name
    (a built-in function, for a name such as [constructor]), and a section
    that is missing has no field. *)
Theorem tokens_first_non_empty (req : request) (options : value) :
  (forall self : C.Strategy,
      exists accessToken refreshToken,
        extracted accessToken [body req; query req] (C._accessTokenField self)
        /\ extracted refreshToken [body req; query req]
                     (C._refreshTokenField self)
        /\ forall (R : Type) (host : Host R),
             C.authenticate self req options
             = Ok (if truthy accessToken
                   then _loadUserProfile accessToken
                          (C.loaded self req accessToken refreshToken)
                   else this_fail (missing_token (C._accessTokenField self))))
  /\ (forall self : L.Strategy,
         exists accessToken refreshToken,
           extracted accessToken [body req; query req; headers req]
                     "access_token"
           /\ extracted refreshToken [body req; query req; headers req]
                        "refresh_token"
           /\ forall (R : Type) (host : Host R),
                L.authenticate self req options
                = Ok (if truthy accessToken
                      then _loadUserProfile accessToken
                             (L.loaded self req accessToken refreshToken)
                      else this_fail (missing_token "access_token")))
  /\ (forall props field v,
         lookup field props = Some v ->
         request_field (VObject props) field = v)
  /\ (forall props field,
         lookup field props = None ->
         request_field (VObject props) field
         = or_undefined (inherited (VObject props) field))
  /\ (forall props,
         request_field (VObject props) "access_token"
         = or_undefined (lookup "access_token" props)
         /\ request_field (VObject props) "refresh_token"
            = or_undefined (lookup "refresh_token" props))
  /\ (forall section field,
         truthy section = false -> request_field section field = VUndefined).
Proof.
  split; [|split; [|split; [|split; [|split]]]].
  - intros self.
    destruct (class_tokenFrom_extracted req (C._accessTokenField self))
      as (a & Ha & Hea).
    destruct (class_tokenFrom_extracted req (C._refreshTokenField self))
      as (r & Hr & Her).
    exists a, r. repeat split; try assumption.
    intros R host. now apply class_authenticate_unfold.
  - intros self.
    destruct (legacy_tokenFrom_extracted req "access_token") as (a & Ha & Hea).
    destruct (legacy_tokenFrom_extracted req "refresh_token") as (r & Hr & Her).
    exists a, r. repeat split; try assumption.
    intros R host. now apply legacy_authenticate_unfold.
  - intros props field v Hv. cbn. now rewrite Hv.
  - intros props field Hv. cbn. now rewrite Hv.
  - intros props. split; cbn.
    + destruct (lookup "access_token" props); reflexivity.
    + destruct (lookup "refresh_token" props); reflexivity.
  - intros section field Hs. unfold request_field. now rewrite Hs.
Qed.

End Tokens.

(** ** The profile *)

Section Profile.
Context {rt : Runtime}.
Local Open Scope js_scope.

Lemma parseProfile_same (body : value) :
  C.parseProfile body = L.parseProfile body.
Proof. reflexivity. Qed.

(** On the success path [done] is called once, with the parsed profile or
    with what the try block threw. *)
Lemma class_fetched_success {R : Type} (done : value -> value -> R)
    (error body res : value) :
  truthy error = false ->
  C.fetched done error body res
  = match C.parseProfile body with
    | Ok profile => done VNull profile
    | Throw e => done e VUndefined
    end.
Proof.
  intros He. unfold C.fetched. rewrite He.
  destruct (C.parseProfile body); reflexivity.
Qed.

Lemma legacy_fetched_success {R : Type} (done : value -> value -> R)
    (error body res : value) :
  truthy error = false ->
  L.fetched done error body res
  = match L.parseProfile body with
    | Ok profile => done VNull profile
    | Throw e => done e VUndefined
    end.
Proof.
  intros He. unfold L.fetched. rewrite He.
  destruct (L.parseProfile body); reflexivity.
Qed.

Lemma class_fetched_error {R : Type} (done : value -> value -> R)
    (error body res : value) :
  truthy error = true ->
  C.fetched done error body res
  = match diagnostics error with
    | Ok wrapped => done wrapped VUndefined
    | Throw _ =>
        done (InternalOAuthError (VString "Failed to fetch user profile") error)
             VUndefined
    end.
Proof.
  intros He. unfold C.fetched, diagnostics. rewrite He.
  destruct (member error "data") as [data|]; cbn; [|reflexivity].
  destruct (JSON_parse data) as [json|]; cbn; [|reflexivity].
  destruct (member json "errors") as [errors|]; cbn; [|reflexivity].
  destruct (member errors "0") as [first|]; cbn; [|reflexivity].
  destruct (member first "error_message") as [message|]; cbn; [|reflexivity].
  destruct (member error "statusCode"); reflexivity.
Qed.

(** Whatever the transport answers, [done] is called once, with arguments
    that depend on the answer alone. *)
Lemma class_fetched_done (error body : value) :
  exists e p, forall (R : Type) (done : value -> value -> R) (res : value),
      C.fetched done error body res = done e p.
Proof.
  destruct (truthy error) eqn:He.
  - destruct (diagnostics error) as [w|x] eqn:Hd.
    + exists w, VUndefined. intros. rewrite class_fetched_error, Hd; auto.
    + eexists _, VUndefined. intros. rewrite class_fetched_error, Hd; auto.
  - destruct (C.parseProfile body) as [p|x] eqn:Hp.
    + exists VNull, p. intros. rewrite class_fetched_success, Hp; auto.
    + exists x, VUndefined. intros. rewrite class_fetched_success, Hp; auto.
Qed.

Lemma legacy_fetched_done (error body : value) :
  exists e p, forall (R : Type) (done : value -> value -> R) (res : value),
      L.fetched done error body res = done e p.
Proof.
  destruct (truthy error) eqn:He.
  - eexists _, VUndefined. intros. unfold L.fetched. rewrite He. reflexivity.
  - destruct (L.parseProfile body) as [p|x] eqn:Hp.
    + exists VNull, p. intros. rewrite legacy_fetched_success, Hp; auto.
    + exists x, VUndefined. intros. rewrite legacy_fetched_success, Hp; auto.
Qed.

End Profile.

(** ** The worked example *)

Section Example.
Context {rt : Runtime}.

(** C4.  When the transport delivers a body that parses to
    [{id:"3207", full_name:"Johannes Wagener",
      avatar_url:"http://example/img.jpg"}],
    userProfile hands [done] no error and a profile whose provider is
    "soundcloud", id "3207", displayName "Johannes Wagener", name.givenName
    "Johannes", name.familyName "Wagener", emails the empty sequence and
    photos the one-element sequence [[{value:"http://example/img.jpg"}]];
    in both implementations. *)
Theorem example_profile {R : Type} (selfC : C.Strategy) (selfL : L.Strategy)
    (accessToken error body res : value) (done : value -> value -> R)
    (Herror : truthy error = false)
    (Hbody : JSON_parse body = Ok JsonText.example_json) :
  exists profile,
    @C.userProfile R (answering error body res) rt selfC accessToken done
    = done VNull profile
    /\ @L.userProfile R (answering error body res) rt selfL accessToken done
       = done VNull profile
    /\ path profile ["provider"] = Ok (VString "soundcloud")
    /\ path profile ["id"] = Ok (VString "3207")
    /\ path profile ["displayName"] = Ok (VString "Johannes Wagener")
    /\ path profile ["name"; "givenName"] = Ok (VString "Johannes")
    /\ path profile ["name"; "familyName"] = Ok (VString "Wagener")
    /\ path profile ["emails"] = Ok (VArray [])
    /\ path profile ["photos"]
       = Ok (VArray [VObject [("value", VString "http://example/img.jpg")]]).
Proof.
  assert (Hp : exists profile, C.parseProfile body = Ok profile
            /\ path profile ["provider"] = Ok (VString "soundcloud")
            /\ path profile ["id"] = Ok (VString "3207")
            /\ path profile ["displayName"] = Ok (VString "Johannes Wagener")
            /\ path profile ["name"; "givenName"] = Ok (VString "Johannes")
            /\ path profile ["name"; "familyName"] = Ok (VString "Wagener")
            /\ path profile ["emails"] = Ok (VArray [])
            /\ path profile ["photos"]
               = Ok (VArray [VObject [("value",
                                       VString "http://example/img.jpg")]])).
  { unfold C.parseProfile. rewrite Hbody. cbn.
    eexists. split; [reflexivity|]. repeat split; reflexivity. }
  destruct Hp as (profile & Hparse & Hfields).
  exists profile. split; [|split]; [| |exact Hfields].
  - unfold C.userProfile. cbn [_oauth2_get answering].
    rewrite class_fetched_success by exact Herror. now rewrite Hparse.
  - unfold L.userProfile. cbn [_oauth2_get answering].
    rewrite legacy_fetched_success by exact Herror.
    now rewrite <- parseProfile_same, Hparse.
Qed.

End Example.

Lemma example_profile_witness :
  @JSON_parse JsonText.runtime (VString JsonText.example_body)
  = Ok JsonText.example_json
  /\ exists profile,
      @C.userProfile (list (value * value))
        (answering VNull (VString JsonText.example_body) VNull)
        JsonText.runtime class_strategy (VString "T")
        (fun e p => [(e, p)])
      = [(VNull, profile)]
      /\ path profile ["name"; "familyName"] = Ok (VString "Wagener").
Proof.
  split; [vm_compute; reflexivity|].
  destruct (@example_profile JsonText.runtime (list (value * value))
              class_strategy legacy_strategy
              (VString "T") VNull (VString JsonText.example_body) VNull
              (fun e p => [(e, p)]) eq_refl
              ltac:(vm_compute; reflexivity))
    as (profile & Hc & _ & _ & _ & _ & _ & Hfamily & _).
  exists profile. split; [exact Hc | exact Hfamily].
Defined.

(** ** The name parts of the profile *)

Section Names.
Context {rt : Runtime}.
Local Open Scope js_scope.

Lemma split_char_space (s : string) :
  split_char " " s
  = before_space s :: match after_space s with
                      | Some rest => split_char " " rest
                      | None => []
                      end.
Proof.
  induction s as [|a r IH]; [reflexivity|].
  cbn [split_char before_space after_space].
  destruct (Ascii.eqb a " "); [reflexivity|].
  rewrite IH. reflexivity.
Qed.

(** [s.split(' ', 2)], piece by piece. *)
Lemma split_parts (s : string) :
  exists parts, call_split (VString s) = Ok parts
    /\ member parts "0" = Ok (VString (before_space s))
    /\ member parts "1"
       = Ok (match after_space s with
             | Some rest => VString (before_space rest)
             | None => VUndefined
             end).
Proof.
  eexists. split; [reflexivity|].
  rewrite split_char_space.
  destruct (after_space s) as [rest|].
  - rewrite (split_char_space rest). split; reflexivity.
  - split; reflexivity.
Qed.

(** A value that has one property read has them all read. *)
Lemma member_ok_all (v : value) (k : string) (w : value) :
  member v k = Ok w -> forall k', member v k' = Ok (section_field v k').
Proof.
  intros Hk k'. unfold section_field.
  destruct v; simpl in *; congruence.
Qed.

(** C5, as amended.  For every parsed provider JSON whose full name is a
    non-empty string, displayName is that string, givenName is the text
    before its first space character and, when it has a space, familyName is
    the text between its first and its second space character (up to the
    end when there is no second one).  Whenever the full-name field is
    absent, displayName, name.givenName and name.familyName are all the
    empty string.  Both implementations agree. *)
Theorem names_cut_at_spaces (body json : value)
    (Hjson : JSON_parse body = Ok json) :
  (forall s,
      member json "full_name" = Ok (VString s) -> s <> "" ->
      exists profile,
        C.parseProfile body = Ok profile
        /\ L.parseProfile body = Ok profile
        /\ path profile ["displayName"] = Ok (VString s)
        /\ path profile ["name"; "givenName"] = Ok (VString (before_space s))
        /\ (forall rest,
               after_space s = Some rest ->
               path profile ["name"; "familyName"]
               = Ok (VString (before_space rest))))
  /\ (member json "full_name" = Ok VUndefined ->
      exists profile,
        C.parseProfile body = Ok profile
        /\ L.parseProfile body = Ok profile
        /\ path profile ["displayName"] = Ok (VString "")
        /\ path profile ["name"; "givenName"] = Ok (VString "")
        /\ path profile ["name"; "familyName"] = Ok (VString "")).
Proof.
  split.
  - intros s Hs Hne.
    pose proof (member_ok_all _ _ _ Hs) as Hm.
    destruct (split_parts s) as (parts & Hsplit & H0 & H1).
    apply truthy_string in Hne.
    change (L.parseProfile body) with (C.parseProfile body).
    unfold C.parseProfile. rewrite Hjson. cbn [bind].
    rewrite Hs. rewrite !Hm. unfold js_or. cbn [bind ret]. rewrite Hne.
    rewrite Hsplit. cbn [bind]. rewrite H0, H1. cbn [bind].
    destruct (truthy (section_field json "avatar_url")); cbn [bind ret];
      eexists; (split; [reflexivity|]); (split; [reflexivity|]);
      (split; [reflexivity|]); (split; [reflexivity|]);
      intros rest Hrest; rewrite Hrest; reflexivity.
  - intros Habsent.
    pose proof (member_ok_all _ _ _ Habsent) as Hm.
    change (L.parseProfile body) with (C.parseProfile body).
    unfold C.parseProfile. rewrite Hjson. cbn [bind].
    rewrite Habsent. rewrite !Hm. unfold js_or. cbn [bind ret truthy].
    destruct (truthy (section_field json "avatar_url")); cbn [bind ret];
      eexists; repeat split; reflexivity.
Qed.

End Names.

Lemma names_cut_at_spaces_witness :
  exists profile,
    @C.parseProfile JsonText.runtime (VString (JsonText.named "Ann Mary Lee"))
    = Ok profile
    /\ path profile ["displayName"] = Ok (VString "Ann Mary Lee")
    /\ path profile ["name"; "givenName"] = Ok (VString "Ann")
    /\ path profile ["name"; "familyName"] = Ok (VString "Mary").
Proof.
  destruct (@names_cut_at_spaces JsonText.runtime
              (VString (JsonText.named "Ann Mary Lee"))
              (VObject [("full_name", VString "Ann Mary Lee")])
              ltac:(vm_compute; reflexivity))
    as (Hname & _).
  destruct (Hname "Ann Mary Lee" eq_refl ltac:(discriminate))
    as (profile & Hc & _ & Hd & Hg & Hf).
  exists profile. repeat split; try assumption.
  exact (Hf "Mary Lee" eq_refl).
Defined.

(** C5, as the specification words it, fails.  Splitting "Ann Mary Lee" on
    its first whitespace run leaves the family name "Mary Lee", and
    splitting "John  Smith" (two spaces) leaves "Smith"; the profile has
    "Mary" and the empty string. *)
Lemma names_not_split_on_whitespace_run :
  (split_first_whitespace_run "Ann Mary Lee" = ("Ann", "Mary Lee")
   /\ exists profile,
       @C.parseProfile JsonText.runtime
          (VString (JsonText.named "Ann Mary Lee")) = Ok profile
       /\ path profile ["name"; "givenName"] = Ok (VString "Ann")
       /\ path profile ["name"; "familyName"] = Ok (VString "Mary")
       /\ path profile ["name"; "familyName"]
          <> Ok (VString (snd (split_first_whitespace_run "Ann Mary Lee"))))
  /\ (split_first_whitespace_run "John  Smith" = ("John", "Smith")
      /\ exists profile,
          @C.parseProfile JsonText.runtime
             (VString (JsonText.named "John  Smith")) = Ok profile
          /\ path profile ["name"; "givenName"] = Ok (VString "John")
          /\ path profile ["name"; "familyName"] = Ok (VString "")
          /\ path profile ["name"; "familyName"]
             <> Ok (VString (snd (split_first_whitespace_run "John  Smith")))).
Proof.
  split; (split; [reflexivity|]); eexists;
    (split; [vm_compute; reflexivity|]);
    (split; [reflexivity|]); (split; [reflexivity|]);
    vm_compute; discriminate.
Qed.

(** ** Failures of the profile retrieval *)

Section Failures.
Context {rt : Runtime} {R : Type} (host : Host R).

(** A usable token found by the specification's reading is the token the
    implementation extracts. *)
Lemma class_tokenFrom_usable (req : request) (f : string) (token : value) :
  extracted token [body req; query req] f -> truthy token = true ->
  C.tokenFrom req f = Ok token.
Proof.
  intros Hex Ht.
  destruct (class_tokenFrom_extracted req f) as (v & Hv & Hev).
  unfold extracted in *.
  destruct (first_non_empty _); congruence.
Qed.

Lemma legacy_tokenFrom_usable (req : request) (f : string) (token : value) :
  extracted token [body req; query req; headers req] f ->
  truthy token = true ->
  L.tokenFrom req f = Ok token.
Proof.
  intros Hex Ht.
  destruct (legacy_tokenFrom_extracted req f) as (v & Hv & Hev).
  unfold extracted in *.
  destruct (first_non_empty _); congruence.
Qed.

(** With a usable access token, authenticate goes on to the profile. *)
Lemma class_authenticate_loads (load : value -> (value -> value -> R) -> R)
    (self : C.Strategy) (req : request) (options accessToken : value) :
  extracted accessToken [body req; query req] (C._accessTokenField self) ->
  truthy accessToken = true ->
  exists refreshToken,
    extracted refreshToken [body req; query req] (C._refreshTokenField self)
    /\ @C.authenticate R (delegating host load) self req options
       = Ok (load accessToken
               (@C.loaded R (delegating host load) self req accessToken
                          refreshToken)).
Proof.
  intros Hex Ht.
  destruct (class_tokenFrom_extracted req (C._refreshTokenField self))
    as (r & Hr & Her).
  exists r. split; [exact Her|].
  rewrite (class_authenticate_unfold self req options accessToken r
             (class_tokenFrom_usable _ _ _ Hex Ht) Hr).
  rewrite Ht. reflexivity.
Qed.

Lemma legacy_authenticate_loads (load : value -> (value -> value -> R) -> R)
    (self : L.Strategy) (req : request) (options accessToken : value) :
  extracted accessToken [body req; query req; headers req] "access_token" ->
  truthy accessToken = true ->
  exists refreshToken,
    extracted refreshToken [body req; query req; headers req] "refresh_token"
    /\ @L.authenticate R (delegating host load) self req options
       = Ok (load accessToken
               (@L.loaded R (delegating host load) self req accessToken
                          refreshToken)).
Proof.
  intros Hex Ht.
  destruct (legacy_tokenFrom_extracted req "refresh_token") as (r & Hr & Her).
  exists r. split; [exact Her|].
  rewrite (legacy_authenticate_unfold self req options accessToken r
             (legacy_tokenFrom_usable _ _ _ Hex Ht) Hr).
  rewrite Ht. reflexivity.
Qed.

(** C6.  When the transport delivers a body on which [JSON.parse] throws,
    userProfile calls [done] with the thrown error itself, not wrapped, and
    with no profile, in both implementations.  An authenticate that reaches
    userProfile through [_loadUserProfile] then ends in the error outcome
    with that same error (an error object, hence truthy). *)
Theorem unparseable_body_raw_error
    (selfC : C.Strategy) (selfL : L.Strategy) (req : request)
    (options accessToken error raw res e : value)
    (done : value -> value -> R)
    (Herror : truthy error = false)
    (Hparse : JSON_parse raw = Throw e) :
  @C.userProfile R (answering error raw res) rt selfC accessToken done
  = done e VUndefined
  /\ @L.userProfile R (answering error raw res) rt selfL accessToken done
     = done e VUndefined
  /\ (truthy e = true ->
      truthy accessToken = true ->
      (extracted accessToken [body req; query req]
                 (C._accessTokenField selfC) ->
       @C.authenticate R
          (delegating host
             (@C.userProfile R (answering error raw res) rt selfC))
          selfC req options
       = Ok (this_error e))
      /\ (extracted accessToken [body req; query req; headers req]
                    "access_token" ->
          @L.authenticate R
             (delegating host
                (@L.userProfile R (answering error raw res) rt selfL))
             selfL req options
          = Ok (this_error e))).
Proof.
  assert (Hthrow : C.parseProfile raw = Throw e).
  { unfold C.parseProfile. now rewrite Hparse. }
  assert (HC : forall (k : value -> value -> R) token,
             @C.userProfile R (answering error raw res) rt selfC token k
             = k e VUndefined).
  { intros k token. unfold C.userProfile. cbn [_oauth2_get answering].
    rewrite class_fetched_success by exact Herror. now rewrite Hthrow. }
  assert (HL : forall (k : value -> value -> R) token,
             @L.userProfile R (answering error raw res) rt selfL token k
             = k e VUndefined).
  { intros k token. unfold L.userProfile. cbn [_oauth2_get answering].
    rewrite legacy_fetched_success by exact Herror.
    change (L.parseProfile raw) with (C.parseProfile raw).
    now rewrite Hthrow. }
  split; [apply HC|]. split; [apply HL|].
  intros He Ht. split; intros Hex.
  - destruct (class_authenticate_loads
                (@C.userProfile R (answering error raw res) rt selfC)
                selfC req options accessToken Hex Ht) as (r & _ & ->).
    rewrite HC. unfold C.loaded. now rewrite He.
  - destruct (legacy_authenticate_loads
                (@L.userProfile R (answering error raw res) rt selfL)
                selfL req options accessToken Hex Ht) as (r & _ & ->).
    rewrite HL. unfold L.loaded. now rewrite He.
Qed.

(** C7.  When the transport answers with an error, the class-based
    userProfile tries to parse the data attached to it as JSON: if that
    parse throws, [done] gets the uniform wrap, an InternalOAuthError with
    the message "Failed to fetch user profile" and the transport error as
    its detail; if it succeeds and the first entry of [errors] is there,
    [done] gets an InternalOAuthError made of that entry's [error_message]
    and of the status code of the transport error (and the uniform wrap
    again when the entry cannot be read).  The uniform wrap is what the
    legacy userProfile hands over for every transport error. *)
Theorem transport_error_wrapped
    (selfC : C.Strategy) (selfL : L.Strategy)
    (accessToken error body res : value) (done : value -> value -> R)
    (Herror : truthy error = true) :
  (forall x,
      JSON_parse (section_field error "data") = Throw x ->
      @C.userProfile R (answering error body res) rt selfC accessToken done
      = done (InternalOAuthError (VString "Failed to fetch user profile")
                                 error)
             VUndefined)
  /\ (forall json message,
         JSON_parse (section_field error "data") = Ok json ->
         path json ["errors"; "0"; "error_message"] = Ok message ->
         @C.userProfile R (answering error body res) rt selfC accessToken done
         = done (InternalOAuthError message
                                    (section_field error "statusCode"))
                VUndefined)
  /\ (forall json x,
         JSON_parse (section_field error "data") = Ok json ->
         path json ["errors"; "0"; "error_message"] = Throw x ->
         @C.userProfile R (answering error body res) rt selfC accessToken done
         = done (InternalOAuthError (VString "Failed to fetch user profile")
                                    error)
                VUndefined)
  /\ @L.userProfile R (answering error body res) rt selfL accessToken done
     = done (InternalOAuthError (VString "Failed to fetch user profile") error)
            VUndefined.
Proof.
  assert (HC : @C.userProfile R (answering error body res) rt selfC
                 accessToken done
               = match diagnostics error with
                 | Ok wrapped => done wrapped VUndefined
                 | Throw _ => done (uniform_wrap error) VUndefined
                 end).
  { unfold C.userProfile. cbn [_oauth2_get answering].
    now apply class_fetched_error. }
  assert (Hd : diagnostics error
               = bind (JSON_parse (section_field error "data"))
                   (fun json =>
                      bind (path json ["errors"; "0"; "error_message"])
                        (fun message =>
                           Ok (InternalOAuthError
                                 message
                                 (section_field error "statusCode"))))).
  { unfold diagnostics. rewrite !(member_truthy _ _ Herror). reflexivity. }
  rewrite Hd in HC. repeat split.
  - intros x Hx. rewrite HC, Hx. reflexivity.
  - intros json message Hj Hm. rewrite HC, Hj. cbn [bind]. rewrite Hm.
    reflexivity.
  - intros json x Hj Hm. rewrite HC, Hj. cbn [bind]. rewrite Hm. reflexivity.
  - unfold L.userProfile. cbn [_oauth2_get answering]. unfold L.fetched.
    now rewrite Herror.
Qed.

End Failures.

Lemma unparseable_body_raw_error_witness :
  let host := outcome_host (fun _ _ => Pending) (VNull, VNull, VNull) in
  let self := class_strategy in
  let req := request_with_body [("access_token", VString "T")] in
  @JSON_parse JsonText.runtime (VString "not a JSON")
  = Throw JsonText.SyntaxError
  /\ @C.authenticate outcome
       (delegating host
          (@C.userProfile outcome
             (answering VNull (VString "not a JSON") VNull)
             JsonText.runtime self))
       self req VUndefined
     = Ok (Errored JsonText.SyntaxError).
Proof.
  intros host self req.
  split; [vm_compute; reflexivity|].
  destruct (@unparseable_body_raw_error JsonText.runtime outcome host
              self legacy_strategy req
              VUndefined (VString "T") VNull (VString "not a JSON") VNull
              JsonText.SyntaxError (fun _ _ => Pending)
              eq_refl ltac:(vm_compute; reflexivity))
    as (_ & _ & Hauth).
  destruct (Hauth eq_refl eq_refl) as (Hclass & _).
  apply Hclass. vm_compute. reflexivity.
Defined.

Lemma transport_error_wrapped_witness :
  let error :=
    VObject [("statusCode", VNumber 401);
             ("data", VString (JsonText.provider_error "401 - Unauthorized"))]
  in
  truthy error = true
  /\ @C.userProfile (list (value * value))
       (answering error VUndefined VUndefined) JsonText.runtime
       class_strategy (VString "T") (fun e p => [(e, p)])
     = [(InternalOAuthError (VString "401 - Unauthorized") (VNumber 401),
         VUndefined)].
Proof.
  intros error. split; [reflexivity|].
  destruct (@transport_error_wrapped JsonText.runtime (list (value * value))
              class_strategy legacy_strategy
              (VString "T") error VUndefined VUndefined
              (fun e p => [(e, p)]) eq_refl)
    as (_ & Hrich & _).
  apply (Hrich (VObject [("errors",
                          VArray [VObject [("error_message",
                                            VString "401 - Unauthorized")]])])
               (VString "401 - Unauthorized")).
  - vm_compute. reflexivity.
  - reflexivity.
Defined.

(** ** The call of the verify callback *)

Section Verify.
Context {R : Type} (host : Host R).

(** C8.  For every request that carries a usable access token and whose
    profile retrieval succeeds with [profile], authenticate calls the verify
    callback with [(req, accessToken, refreshToken, profile, verified)] when
    [passReqToCallback] is true (truthy), and with
    [(accessToken, refreshToken, profile, verified)], the request left out,
    when it is false or unset (falsy); [refreshToken] is the token extracted
    from the refresh-token field.  In both implementations. *)
Theorem verify_called_with
    (selfC : C.Strategy) (selfL : L.Strategy) (req : request)
    (options accessToken error profile : value)
    (Htoken : truthy accessToken = true)
    (Herror : truthy error = false) :
  (extracted accessToken [body req; query req] (C._accessTokenField selfC) ->
   exists refreshToken,
     extracted refreshToken [body req; query req]
               (C._refreshTokenField selfC)
     /\ @C.authenticate R (delegating host (fun _ k => k error profile))
          selfC req options
        = Ok (_verify
                (if truthy (C._passReqToCallback selfC)
                 then [AReq req; AVal accessToken; AVal refreshToken;
                       AVal profile; ADone C.verified]
                 else [AVal accessToken; AVal refreshToken; AVal profile;
                       ADone C.verified])))
  /\ (extracted accessToken [body req; query req; headers req]
                "access_token" ->
      exists refreshToken,
        extracted refreshToken [body req; query req; headers req]
                  "refresh_token"
        /\ @L.authenticate R (delegating host (fun _ k => k error profile))
             selfL req options
           = Ok (_verify
                   (if truthy (L._passReqToCallback selfL)
                    then [AReq req; AVal accessToken; AVal refreshToken;
                          AVal profile; ADone L.verified]
                    else [AVal accessToken; AVal refreshToken; AVal profile;
                          ADone L.verified]))).
Proof.
  split; intros Hex.
  - destruct (class_authenticate_loads host (fun _ k => k error profile)
                selfC req options accessToken Hex Htoken) as (r & Hr & ->).
    exists r. split; [exact Hr|].
    rewrite (@class_loaded_verify R (delegating host _)) by exact Herror.
    reflexivity.
  - destruct (legacy_authenticate_loads host (fun _ k => k error profile)
                selfL req options accessToken Hex Htoken) as (r & Hr & ->).
    exists r. split; [exact Hr|].
    rewrite (@legacy_loaded_verify R (delegating host _)) by exact Herror.
    reflexivity.
Qed.

End Verify.

Lemma verify_called_with_witness :
  let host :=
    recording_host (fun _ _ => [])
                   (fun _ => (VNull, VString "user", VString "info")) in
  let self :=
    class_strategy_with_request in
  let req := request_with_body [("access_token", VString "T");
                                ("refresh_token", VString "R")] in
  @C.authenticate trace
     (delegating host (fun _ k => k VNull (VObject [])))
     self req VUndefined
  = Ok [EVerify [SReq req; SVal (VString "T"); SVal (VString "R");
                 SVal (VObject []); SDone];
        ESuccess (VString "user") (VString "info")].
Proof.
  intros host self req.
  destruct (@verify_called_with trace host self legacy_strategy
              req VUndefined (VString "T") VNull (VObject [])
              eq_refl eq_refl) as (Hclass & _).
  destruct Hclass as (r & Hr & Hauth); [vm_compute; reflexivity|].
  vm_compute in Hr. subst r. rewrite Hauth. reflexivity.
Defined.

(** ** userProfile as a function of the token and of the transport's answer *)

Section Determinism.
Context {rt : Runtime} {S : Type}.
Variable stub : S -> string -> value -> S * response.

(** C9.  With a transport stub that answers alike whatever its own state,
    calling userProfile twice with the same access token hands [done] the
    same error and the same profile both times, in both implementations. *)
Theorem userProfile_twice_equal
    (selfC : C.Strategy) (selfL : L.Strategy) (accessToken : value) (s : S)
    (Hstub : deterministic stub) :
  (let '(first, second) :=
     twice (@C.userProfile _ (stateful_oauth2 stub) rt selfC) accessToken s in
   first = second)
  /\ (let '(first, second) :=
        twice (@L.userProfile _ (stateful_oauth2 stub) rt selfL) accessToken s
      in first = second).
Proof.
  split.
  - unfold twice, C.userProfile. cbn [_oauth2_get stateful_oauth2].
    destruct (stub s (C._profileURL selfC) accessToken) as [s1 r1] eqn:E1.
    destruct (class_fetched_done (r_error r1) (r_body r1)) as (e & p & Hdone).
    rewrite Hdone.
    destruct (stub s1 (C._profileURL selfC) accessToken) as [s2 r2] eqn:E2.
    assert (Hr : r2 = r1).
    { pose proof (Hstub s1 s (C._profileURL selfC) accessToken) as H.
      now rewrite E1, E2 in H. }
    subst r2. rewrite Hdone. reflexivity.
  - unfold twice, L.userProfile. cbn [_oauth2_get stateful_oauth2].
    destruct (stub s (L._profileURL selfL) accessToken) as [s1 r1] eqn:E1.
    destruct (legacy_fetched_done (r_error r1) (r_body r1)) as (e & p & Hdone).
    rewrite Hdone.
    destruct (stub s1 (L._profileURL selfL) accessToken) as [s2 r2] eqn:E2.
    assert (Hr : r2 = r1).
    { pose proof (Hstub s1 s (L._profileURL selfL) accessToken) as H.
      now rewrite E1, E2 in H. }
    subst r2. rewrite Hdone. reflexivity.
Qed.

End Determinism.

Lemma userProfile_twice_equal_witness :
  deterministic (counting_stub (VString JsonText.example_body))
  /\ (let '(first, second) :=
        twice (@C.userProfile _
                 (stateful_oauth2
                    (counting_stub (VString JsonText.example_body)))
                 JsonText.runtime class_strategy)
              (VString "T") 0
      in first = second).
Proof.
  split; [intros s s' url token; reflexivity|].
  exact (proj1 (@userProfile_twice_equal JsonText.runtime nat
                  (counting_stub (VString JsonText.example_body))
                  class_strategy legacy_strategy
                  (VString "T") 0
                  (fun s s' url token => eq_refl))).
Defined.

(** ** The two implementations on the success path *)

Section Equivalence.
Context {rt : Runtime} {R : Type}.

(** C10.  On every body the transport delivers without error, in
    particular on every body that parses as JSON, the class-based and the
    legacy implementation build the same profile, or throw the same error,
    and their userProfile hands [done] the same arguments. *)
Theorem implementations_same_profile
    (selfC : C.Strategy) (selfL : L.Strategy)
    (accessToken error raw res : value) (done : value -> value -> R)
    (Herror : truthy error = false) :
  C.parseProfile raw = L.parseProfile raw
  /\ @C.userProfile R (answering error raw res) rt selfC accessToken done
     = @L.userProfile R (answering error raw res) rt selfL accessToken done
  /\ (forall json profile,
         JSON_parse raw = Ok json ->
         C.parseProfile raw = Ok profile ->
         @L.userProfile R (answering error raw res) rt selfL accessToken done
         = done VNull profile).
Proof.
  split; [reflexivity|]. split.
  - unfold C.userProfile, L.userProfile. cbn [_oauth2_get answering].
    rewrite class_fetched_success, legacy_fetched_success by exact Herror.
    reflexivity.
  - intros json profile _ Hp.
    unfold L.userProfile. cbn [_oauth2_get answering].
    rewrite legacy_fetched_success by exact Herror.
    change (L.parseProfile raw) with (C.parseProfile raw).
    now rewrite Hp.
Qed.

End Equivalence.

Lemma implementations_same_profile_witness :
  @C.userProfile (list (value * value))
     (answering VNull (VString JsonText.example_body) VNull)
     JsonText.runtime class_strategy (VString "T")
     (fun e p => [(e, p)])
  = @L.userProfile (list (value * value))
      (answering VNull (VString JsonText.example_body) VNull)
      JsonText.runtime legacy_strategy (VString "T")
      (fun e p => [(e, p)]).
Proof.
  exact (proj1 (proj2
    (@implementations_same_profile JsonText.runtime (list (value * value))
       class_strategy legacy_strategy
       (VString "T") VNull (VString JsonText.example_body) VNull
       (fun e p => [(e, p)]) eq_refl))).
Defined.

(** ** The test suite, replayed *)

Section Replay.

(** Tokens in the headers: the legacy strategy authenticates. *)
Example legacy_reads_headers :
  let self := legacy_strategy in
  exists profile,
    @L.authenticate trace
       (recording_host
          (@L.userProfile trace transport JsonText.runtime self) app)
       self in_headers (VObject [])
    = Ok [EGet "https://api.soundcloud.com/me.json" (VString "access_token");
          EVerify [SVal (VString "access_token");
                   SVal (VString "refresh_token"); SVal profile; SDone];
          ESuccess profile (VObject [("info", VString "foo")])]
    /\ path profile ["id"] = Ok (VString "3207").
Proof. eexists. split; vm_compute; reflexivity. Qed.

(** The class-based strategy does not consult the headers. *)
Example class_ignores_headers :
  let self := class_strategy in
  @C.authenticate trace
     (recording_host
        (@C.userProfile trace transport JsonText.runtime self) app)
     self in_headers (VObject [])
  = Ok [EFail (VObject [("message",
                         VString "You should provide access_token")])].
Proof. vm_compute. reflexivity. Qed.

(** Tokens in the body, [passReqToCallback] set. *)
Example class_passes_request :
  let self :=
    class_strategy_with_request in
  let req := request_with_body tokens in
  exists profile,
    @C.authenticate trace
       (recording_host
          (@C.userProfile trace transport JsonText.runtime self) app)
       self req (VObject [])
    = Ok [EGet "https://api.soundcloud.com/me.json" (VString "access_token");
          EVerify [SReq req; SVal (VString "access_token");
                   SVal (VString "refresh_token"); SVal profile; SDone];
          ESuccess profile (VObject [("info", VString "foo")])].
Proof. eexists. vm_compute. reflexivity. Qed.

(** A field name that objects inherit: with [accessTokenField] set to
    "constructor", an empty body has the built-in Object function under
    that name, which is truthy, and authenticate goes on with it as the
    access token. *)
Example inherited_field_is_a_token :
  let self :=
    {| C.name := "soundcloud-token";
       C._accessTokenField := "constructor";
       C._refreshTokenField := "refresh_token";
       C._profileURL := "https://api.soundcloud.com/me.json";
       C._passReqToCallback := VUndefined |} in
  exists profile,
    @C.authenticate trace
       (recording_host
          (@C.userProfile trace transport JsonText.runtime self) app)
       self (request_with_body []) (VObject [])
    = Ok [EGet "https://api.soundcloud.com/me.json" (native "Object");
          EVerify [SVal (native "Object"); SVal VUndefined; SVal profile;
                   SDone];
          ESuccess profile (VObject [("info", VString "foo")])].
Proof. eexists. vm_compute. reflexivity. Qed.

(** A query token is used when the body has an empty one. *)
Example query_after_empty_body :
  C.tokenFrom {| body := VObject [("access_token", VString "")];
                 query := VObject [("access_token", VString "Q")];
                 headers := VUndefined |}
              "access_token"
  = Ok (VString "Q").
Proof. reflexivity. Qed.

(** A one-word name has no second piece. *)
Example one_word_name :
  exists profile,
    @C.parseProfile JsonText.runtime (VString (JsonText.named "Madonna"))
    = Ok profile
    /\ path profile ["name"; "givenName"] = Ok (VString "Madonna")
    /\ path profile ["name"; "familyName"] = Ok VUndefined.
Proof. eexists. split; [vm_compute; reflexivity|]. split; reflexivity. Qed.

(** The JSON text [null] parses, and reading [id] from it throws; the
    error reaches [done] like a parse error does. *)
Example null_body :
  @C.parseProfile JsonText.runtime (VString "null") = Throw TypeError.
Proof. vm_compute. reflexivity. Qed.

End Replay.

(** * Further properties of the code *)

(** ** authenticate returns normally *)

Section Total.
Context {R : Type} {host : Host R}.

(** X1.  authenticate never throws, whatever the request looks like: a
    missing ([undefined] or [null]) body, query or headers section is
    skipped by the guards and never read from.  Both implementations. *)
Theorem authenticate_never_throws
    (selfC : C.Strategy) (selfL : L.Strategy) (req : request)
    (options : value) :
  (exists answer, C.authenticate selfC req options = Ok answer)
  /\ (exists answer, L.authenticate selfL req options = Ok answer).
Proof.
  split.
  - destruct (class_tokenFrom_extracted req (C._accessTokenField selfC))
      as (a & Ha & _).
    destruct (class_tokenFrom_extracted req (C._refreshTokenField selfC))
      as (r & Hr & _).
    rewrite (class_authenticate_unfold selfC req options a r Ha Hr). eauto.
  - destruct (legacy_tokenFrom_extracted req "access_token") as (a & Ha & _).
    destruct (legacy_tokenFrom_extracted req "refresh_token") as (r & Hr & _).
    rewrite (legacy_authenticate_unfold selfL req options a r Ha Hr). eauto.
Qed.

End Total.

(** ** The constructors *)

Section Constructors.





End Constructors.



(** ** The two implementations on the same request *)

Section Variants.

Lemma legacy_tokenFrom_class (req : request) (f : string) :
  L.tokenFrom req f
  = js_or (C.tokenFrom req f)
          (js_and (ret (headers req)) (member (headers req) f)).
Proof. reflexivity. Qed.

(** X4.  A usable token that the class-based implementation extracts is
    the token the legacy implementation extracts from the same request.
    When the headers do not carry the field, the legacy implementation finds
    a usable token exactly when the class-based one does. *)
Theorem legacy_extends_class (req : request) (f : string) (vc : value)
    (Hclass : C.tokenFrom req f = Ok vc) :
  (truthy vc = true -> L.tokenFrom req f = Ok vc)
  /\ (truthy (section_field (headers req) f) = false ->
      exists vl, L.tokenFrom req f = Ok vl /\ truthy vl = truthy vc).
Proof.
  rewrite legacy_tokenFrom_class, Hclass. split.
  - intros Hv. now apply js_or_Ok_truthy.
  - intros Hh. destruct (truthy vc) eqn:Hv.
    + exists vc. split; [now apply js_or_Ok_truthy | exact Hv].
    + destruct (consult_last (headers req) f) as (x & Hx & Ht & _).
      assert (Hr : truthy (request_field (headers req) f) = false).
      { unfold request_field. destruct (truthy (headers req)); auto. }
      exists x. unfold js_or, bind. rewrite Hv, Hx. split; congruence.
Qed.

End Variants.

Lemma legacy_extends_class_witness :
  L.tokenFrom {| body := VNull;
                 query := VObject [("access_token", VString "Q")];
                 headers := VObject [("access_token", VString "H")] |}
              "access_token"
  = Ok (VString "Q").
Proof.
  exact (proj1 (legacy_extends_class
                  {| body := VNull;
                     query := VObject [("access_token", VString "Q")];
                     headers := VObject [("access_token", VString "H")] |}
                  "access_token" (VString "Q") eq_refl) eq_refl).
Defined.

(** ** From the request to the outcome *)

Section Pipeline.
Context {rt : Runtime} {R : Type} (host : Host R).

Lemma diagnostics_wrapped (error w : value) :
  diagnostics error = Ok w ->
  exists message statusCode, w = InternalOAuthError message statusCode.
Proof.
  unfold diagnostics.
  destruct (member error "data") as [data|]; cbn [bind]; [|discriminate].
  destruct (JSON_parse data) as [json|]; cbn [bind]; [|discriminate].
  destruct (path json ["errors"; "0"; "error_message"]) as [message|];
    cbn [bind]; [|discriminate].
  destruct (member error "statusCode") as [statusCode|]; cbn [bind ret];
    [|discriminate].
  intros [= <-]. eauto.
Qed.

(** X5.  When the profile retrieval calls back with an error, authenticate
    ends in the error outcome with that very error; the verify callback has
    no part in the answer, whatever profile came along.  Both
    implementations. *)
Theorem retrieval_error_is_error
    (selfC : C.Strategy) (selfL : L.Strategy) (req : request)
    (options accessToken error profile : value)
    (Htoken : truthy accessToken = true)
    (Herror : truthy error = true) :
  (extracted accessToken [body req; query req] (C._accessTokenField selfC) ->
   @C.authenticate R (delegating host (fun _ k => k error profile))
      selfC req options
   = Ok (this_error error))
  /\ (extracted accessToken [body req; query req; headers req]
                "access_token" ->
      @L.authenticate R (delegating host (fun _ k => k error profile))
         selfL req options
      = Ok (this_error error)).
Proof.
  split; intros Hex.
  - destruct (class_authenticate_loads host (fun _ k => k error profile)
                selfC req options accessToken Hex Htoken) as (r & _ & ->).
    unfold C.loaded. now rewrite Herror.
  - destruct (legacy_authenticate_loads host (fun _ k => k error profile)
                selfL req options accessToken Hex Htoken) as (r & _ & ->).
    unfold L.loaded. now rewrite Herror.
Qed.

(** X6.  When the transport answers with an error, an authenticate that
    reaches userProfile through [_loadUserProfile] ends in the error
    outcome with an InternalOAuthError: in the legacy implementation the one
    that carries "Failed to fetch user profile" and the transport error, in
    the class-based one that one or the one made of the provider's
    message.  The transport error itself is never handed to the host. *)
Theorem transport_error_is_error
    (selfC : C.Strategy) (selfL : L.Strategy) (req : request)
    (options accessToken error raw res : value)
    (Htoken : truthy accessToken = true)
    (Herror : truthy error = true) :
  (extracted accessToken [body req; query req] (C._accessTokenField selfC) ->
   exists message detail,
     @C.authenticate R
        (delegating host
           (@C.userProfile R (answering error raw res) rt selfC))
        selfC req options
     = Ok (this_error (InternalOAuthError message detail)))
  /\ (extracted accessToken [body req; query req; headers req]
                "access_token" ->
      @L.authenticate R
         (delegating host
            (@L.userProfile R (answering error raw res) rt selfL))
         selfL req options
      = Ok (this_error
              (InternalOAuthError (VString "Failed to fetch user profile")
                                  error))).
Proof.
  split; intros Hex.
  - destruct (class_authenticate_loads host
                (@C.userProfile R (answering error raw res) rt selfC)
                selfC req options accessToken Hex Htoken) as (r & _ & ->).
    unfold C.userProfile. cbn [_oauth2_get answering].
    rewrite class_fetched_error by exact Herror.
    destruct (diagnostics error) as [w|x] eqn:Hd.
    + destruct (diagnostics_wrapped _ _ Hd) as (m & sc & ->).
      exists m, sc. reflexivity.
    + eexists _, _. reflexivity.
  - destruct (legacy_authenticate_loads host
                (@L.userProfile R (answering error raw res) rt selfL)
                selfL req options accessToken Hex Htoken) as (r & _ & ->).
    unfold L.userProfile. cbn [_oauth2_get answering].
    unfold L.fetched. rewrite Herror. reflexivity.
Qed.

(** X7.  The whole way through: for a request with a usable access token,
    a transport that delivers without error a body from which the profile is
    built, and a verify callback that calls its completion with
    [(error, user, info)], authenticate ends in the error outcome with
    [error] when it is truthy, else in the success outcome with
    [(user, info)] when [user] is truthy, else in the fail outcome with
    [info].  Both implementations. *)
Theorem authenticate_end_to_end
    (selfC : C.Strategy) (selfL : L.Strategy) (req : request)
    (options accessToken terror raw res profile error user info : value)
    (Htoken : truthy accessToken = true)
    (Hterror : truthy terror = false)
    (Hprofile : C.parseProfile raw = Ok profile)
    (Hverify : forall args k,
        completion args = Some k -> _verify args = k error user info) :
  (extracted accessToken [body req; query req] (C._accessTokenField selfC) ->
   @C.authenticate R
      (delegating host
         (@C.userProfile R (answering terror raw res) rt selfC))
      selfC req options
   = Ok (signalled error user info))
  /\ (extracted accessToken [body req; query req; headers req]
                "access_token" ->
      @L.authenticate R
         (delegating host
            (@L.userProfile R (answering terror raw res) rt selfL))
         selfL req options
      = Ok (signalled error user info)).
Proof.
  split; intros Hex.
  - destruct (class_authenticate_loads host
                (@C.userProfile R (answering terror raw res) rt selfC)
                selfC req options accessToken Hex Htoken) as (r & _ & ->).
    unfold C.userProfile. cbn [_oauth2_get answering].
    rewrite class_fetched_success, Hprofile by exact Hterror.
    change (Ok (@C.loaded R host selfC req accessToken r VNull profile)
            = Ok (signalled error user info)).
    rewrite class_loaded_verify by reflexivity.
    rewrite (Hverify _ C.verified).
    + now rewrite class_verified_signalled.
    + destruct (truthy (C._passReqToCallback selfC)); reflexivity.
  - destruct (legacy_authenticate_loads host
                (@L.userProfile R (answering terror raw res) rt selfL)
                selfL req options accessToken Hex Htoken) as (r & _ & ->).
    unfold L.userProfile. cbn [_oauth2_get answering].
    rewrite legacy_fetched_success by exact Hterror.
    change (L.parseProfile raw) with (C.parseProfile raw). rewrite Hprofile.
    change (Ok (@L.loaded R host selfL req accessToken r VNull profile)
            = Ok (signalled error user info)).
    rewrite legacy_loaded_verify by reflexivity.
    rewrite (Hverify _ L.verified).
    + now rewrite legacy_verified_signalled.
    + destruct (truthy (L._passReqToCallback selfL)); reflexivity.
Qed.

End Pipeline.

Lemma retrieval_error_is_error_witness :
  @C.authenticate outcome
     (delegating (outcome_host (fun _ _ => Pending) (VNull, VNull, VNull))
                 (fun _ k => k (VString "boom") VUndefined))
     class_strategy (request_with_body tokens) VUndefined
  = Ok (Errored (VString "boom")).
Proof.
  apply (proj1 (@retrieval_error_is_error outcome
                  (outcome_host (fun _ _ => Pending) (VNull, VNull, VNull))
                  class_strategy legacy_strategy
                  (request_with_body tokens) VUndefined
                  (VString "access_token") (VString "boom") VUndefined
                  eq_refl eq_refl)).
  vm_compute. reflexivity.
Defined.

Lemma transport_error_is_error_witness :
  let error :=
    VObject [("statusCode", VNumber 401);
             ("data", VString (JsonText.provider_error "401 - Unauthorized"))]
  in
  @L.authenticate outcome
     (delegating (outcome_host (fun _ _ => Pending) (VNull, VNull, VNull))
        (@L.userProfile outcome (answering error VUndefined VUndefined)
           JsonText.runtime legacy_strategy))
     legacy_strategy in_headers VUndefined
  = Ok (Errored (InternalOAuthError (VString "Failed to fetch user profile")
                                    error)).
Proof.
  intros error.
  apply (proj2 (@transport_error_is_error JsonText.runtime outcome
                  (outcome_host (fun _ _ => Pending) (VNull, VNull, VNull))
                  class_strategy legacy_strategy
                  in_headers VUndefined
                  (VString "access_token") error VUndefined VUndefined
                  eq_refl eq_refl)).
  vm_compute. reflexivity.
Defined.

Lemma authenticate_end_to_end_witness :
  @C.authenticate outcome
     (delegating
        (outcome_host (fun _ _ => Pending)
                      (VNull, VString "user", VString "info"))
        (@C.userProfile outcome
           (answering VNull (VString JsonText.example_body) VNull)
           JsonText.runtime class_strategy))
     class_strategy (request_with_body tokens) VUndefined
  = Ok (Succeeded (VString "user") (VString "info")).
Proof.
  refine (proj1 (@authenticate_end_to_end JsonText.runtime outcome
                   (outcome_host (fun _ _ => Pending)
                                 (VNull, VString "user", VString "info"))
                   class_strategy legacy_strategy
                   (request_with_body tokens) VUndefined
                   (VString "access_token") VNull
                   (VString JsonText.example_body) VNull
                   _ VNull (VString "user") (VString "info")
                   eq_refl eq_refl _ _) _).
  - vm_compute. reflexivity.
  - intros args k Hk. simpl. rewrite Hk. reflexivity.
  - vm_compute. reflexivity.
Defined.

(** ** The shape of a run *)

Section Shape.
Context {rt : Runtime}.
Variable respond : string -> value -> response.
Variable decide : list seen -> value * value * value.

(** X8.  Under a host and a transport that record what is called and answer
    at once, every run of authenticate is one of: a single fail with the
    missing-token reason, when the extracted access token is unusable; one
    fetch followed by an error; one fetch, one verify call and one outcome.
    The fetch goes to the configured profile URL with the extracted access
    token.  So there is never a verify call without a fetch before it,
    never a second fetch, and never more than one outcome.  Both
    implementations. *)
Theorem run_has_shape (selfC : C.Strategy) (selfL : L.Strategy)
    (req : request) (options : value) :
  (exists accessToken,
      extracted accessToken [body req; query req] (C._accessTokenField selfC)
      /\ run_shape (C._profileURL selfC) accessToken
           (missing_token (C._accessTokenField selfC))
           (@C.authenticate trace
              (recording_host
                 (@C.userProfile trace (recording_oauth2 respond) rt selfC)
                 decide)
              selfC req options))
  /\ (exists accessToken,
         extracted accessToken [body req; query req; headers req]
                   "access_token"
         /\ run_shape (L._profileURL selfL) accessToken
              (missing_token "access_token")
              (@L.authenticate trace
                 (recording_host
                    (@L.userProfile trace (recording_oauth2 respond) rt selfL)
                    decide)
                 selfL req options)).
Proof.
  split.
  - destruct (class_tokenFrom_extracted req (C._accessTokenField selfC))
      as (a & Ha & Hea).
    destruct (class_tokenFrom_extracted req (C._refreshTokenField selfC))
      as (r & Hr & _).
    exists a. split; [exact Hea|].
    rewrite (class_authenticate_unfold selfC req options a r Ha Hr).
    unfold run_shape. destruct (truthy a); [right | left; auto].
    cbn [_loadUserProfile recording_host]. unfold C.userProfile.
    cbn [_oauth2_get recording_oauth2].
    set (answer := respond (C._profileURL selfC) a).
    destruct (class_fetched_done (r_error answer) (r_body answer))
      as (e & p & Hdone).
    rewrite Hdone. unfold C.loaded.
    destruct (truthy e);
      [left; split; [reflexivity | eexists; reflexivity]|].
    right. split; [reflexivity|].
    destruct (truthy (C._passReqToCallback selfC));
      cbn [_verify recording_host completion map see];
      match goal with
      | |- context [decide ?args] => destruct (decide args) as [[ve vu] vi]
      end;
      unfold C.verified; cbn [this_error this_fail this_success
                                recording_host];
      destruct (truthy ve); try destruct (truthy vu);
      do 2 eexists; split; reflexivity.
  - destruct (legacy_tokenFrom_extracted req "access_token") as (a & Ha & Hea).
    destruct (legacy_tokenFrom_extracted req "refresh_token") as (r & Hr & _).
    exists a. split; [exact Hea|].
    rewrite (legacy_authenticate_unfold selfL req options a r Ha Hr).
    unfold run_shape. destruct (truthy a); [right | left; auto].
    cbn [_loadUserProfile recording_host]. unfold L.userProfile.
    cbn [_oauth2_get recording_oauth2].
    set (answer := respond (L._profileURL selfL) a).
    destruct (legacy_fetched_done (r_error answer) (r_body answer))
      as (e & p & Hdone).
    rewrite Hdone. unfold L.loaded.
    destruct (truthy e);
      [left; split; [reflexivity | eexists; reflexivity]|].
    right. split; [reflexivity|].
    destruct (truthy (L._passReqToCallback selfL));
      cbn [_verify recording_host completion map see];
      match goal with
      | |- context [decide ?args] => destruct (decide args) as [[ve vu] vi]
      end;
      unfold L.verified; cbn [this_error this_fail this_success
                                recording_host];
      destruct (truthy ve); try destruct (truthy vu);
      do 2 eexists; split; reflexivity.
Qed.

End Shape.

(** ** What a profile is made of *)

Section Built.
Context {rt : Runtime}.
Local Open Scope js_scope.

Lemma member_not_nullish (v : value) (k : string) :
  nullish v = false -> member v k = Ok (section_field v k).
Proof.
  intros Hv. unfold section_field.
  destruct v; simpl in *; congruence.
Qed.

Lemma split_members (s : string) :
  member (VArray (map VString (firstn 2 (split_char " " s)))) "0"
  = Ok (VString (before_space s))
  /\ member (VArray (map VString (firstn 2 (split_char " " s)))) "1"
     = Ok (second_piece s).
Proof.
  unfold second_piece. rewrite split_char_space.
  destruct (after_space s) as [rest|].
  - rewrite (split_char_space rest). split; reflexivity.
  - split; reflexivity.
Qed.

Lemma parseProfile_cases (raw : value) :
  C.parseProfile raw = bind (JSON_parse raw) (profile_cases raw).
Proof.
  unfold C.parseProfile. destruct (JSON_parse raw) as [json|e]; [|reflexivity].
  cbn [bind]. unfold profile_cases, profile_of.
  destruct (nullish json) eqn:Hn.
  { destruct json; try discriminate; reflexivity. }
  rewrite !(member_not_nullish _ _ Hn). unfold js_or. cbn [bind ret].
  destruct (section_field json "full_name") as [| |b|n|s|l|props] eqn:Hfn;
    cbn [truthy bind ret call_split];
    try (destruct (truthy (section_field json "avatar_url")); reflexivity).
  - destruct b; [reflexivity|].
    destruct (truthy (section_field json "avatar_url")); reflexivity.
  - destruct (n =? 0)%Z; cbn [negb]; [|reflexivity].
    destruct (truthy (section_field json "avatar_url")); reflexivity.
  - destruct (s =? ""); cbn [negb].
    + destruct (truthy (section_field json "avatar_url")); reflexivity.
    + destruct (split_members s) as (H0 & H1).
      rewrite H0, H1. cbn [bind].
      destruct (truthy (section_field json "avatar_url")); reflexivity.
Qed.

Lemma parseProfile_built (raw profile : value) :
  C.parseProfile raw = Ok profile ->
  exists json d f g,
    JSON_parse raw = Ok json
    /\ nullish json = false
    /\ profile = profile_of raw json d f g
    /\ ((truthy (section_field json "full_name") = false
         /\ d = VString "" /\ f = VString "" /\ g = VString "")
        \/ (exists s, section_field json "full_name" = VString s
                      /\ s <> ""
                      /\ d = VString s
                      /\ f = second_piece s
                      /\ g = VString (before_space s))).
Proof.
  rewrite parseProfile_cases.
  destruct (JSON_parse raw) as [json|e]; cbn [bind]; [|discriminate].
  unfold profile_cases. destruct (nullish json) eqn:Hn; [discriminate|].
  assert (Hbuilt : forall d f g,
             (truthy (section_field json "full_name") = false
              /\ d = VString "" /\ f = VString "" /\ g = VString "")
             \/ (exists s, section_field json "full_name" = VString s
                           /\ s <> "" /\ d = VString s
                           /\ f = second_piece s
                           /\ g = VString (before_space s)) ->
             exists json' d' f' g',
               Ok json = Ok json'
               /\ nullish json' = false
               /\ profile_of raw json d f g = profile_of raw json' d' f' g'
               /\ ((truthy (section_field json' "full_name") = false
                    /\ d' = VString "" /\ f' = VString ""
                    /\ g' = VString "")
                   \/ (exists s, section_field json' "full_name" = VString s
                                 /\ s <> "" /\ d' = VString s
                                 /\ f' = second_piece s
                                 /\ g' = VString (before_space s)))).
  { intros d f g Hnames. exists json, d, f, g. auto. }
  destruct (section_field json "full_name") as [| |b|n|s|l|props] eqn:Hfn;
    cbn [truthy]; try discriminate.
  - intros [= <-]. apply Hbuilt. left. auto.
  - intros [= <-]. apply Hbuilt. left. auto.
  - destruct b; [discriminate|]. intros [= <-]. apply Hbuilt. left. auto.
  - destruct (Z.eqb_spec n 0); cbn [negb]; [|discriminate]. intros [= <-].
    apply Hbuilt. left. subst n. auto.
  - destruct (String.eqb_spec s ""); intros [= <-]; apply Hbuilt.
    + left. subst s. auto.
    + right. exists s. auto.
Qed.

Lemma append_empty_right (s : string) : s ++ "" = s.
Proof. induction s as [|c r IH]; [reflexivity|]. cbn. now rewrite IH. Qed.

Lemma before_space_no_space (s : string) : has_space (before_space s) = false.
Proof.
  induction s as [|c r IH]; [reflexivity|]. cbn [before_space].
  destruct (Ascii.eqb c " ") eqn:Hc; [reflexivity|].
  cbn [has_space]. now rewrite Hc.
Qed.

Lemma after_space_has_space (s : string) :
  match after_space s with
  | Some rest => has_space s = true /\ s = before_space s ++ " " ++ rest
  | None => has_space s = false /\ before_space s = s
  end.
Proof.
  induction s as [|c r IH]; [split; reflexivity|].
  cbn [after_space before_space has_space].
  destruct (Ascii.eqb_spec c " ") as [->|Hc]; [split; reflexivity|].
  destruct (after_space r) as [rest|]; destruct IH as (Hh & Hr);
    cbn [orb]; split; try assumption.
  - cbn [append]. now f_equal.
  - now f_equal.
Qed.

End Built.

Section BuiltProfiles.
Context {rt : Runtime}.

(** X9.  Every profile that is built, whatever the provider sent, has the
    provider "soundcloud", no emails, exactly one photo, the body as
    delivered under [_raw] and the parsed JSON under [_json]; its id and
    username are those of the JSON.  The photo is the JSON's [avatar_url]
    when that is truthy and the empty string otherwise, so it is never
    absent.  The legacy try block builds the same profile. *)
Theorem profile_fixed_parts (raw profile : value)
    (Hbuilt : C.parseProfile raw = Ok profile) :
  exists json photo,
    JSON_parse raw = Ok json
    /\ L.parseProfile raw = Ok profile
    /\ path profile ["provider"] = Ok (VString "soundcloud")
    /\ path profile ["emails"] = Ok (VArray [])
    /\ path profile ["photos"] = Ok (VArray [VObject [("value", photo)]])
    /\ path profile ["_raw"] = Ok raw
    /\ path profile ["_json"] = Ok json
    /\ path profile ["id"] = member json "id"
    /\ path profile ["username"] = member json "username"
    /\ member json "avatar_url"
       = Ok (section_field json "avatar_url")
    /\ photo = (if truthy (section_field json "avatar_url")
                then section_field json "avatar_url"
                else VString "")
    /\ nullish photo = false.
Proof.
  destruct (parseProfile_built raw profile Hbuilt)
    as (json & d & f & g & Hjson & Hn & -> & _).
  exists json. eexists. split; [exact Hjson|]. split; [exact Hbuilt|].
  rewrite !(member_not_nullish _ _ Hn).
  repeat (split; [reflexivity|]).
  destruct (truthy (section_field json "avatar_url")) eqn:Ha; [|reflexivity].
  destruct (section_field json "avatar_url"); try reflexivity; discriminate.
Qed.

(** X10.  When the body parses, the profile is built except in two cases,
    in which the try block throws a TypeError that [done] then receives as
    its error: the JSON is [null] (or is no value at all), or its full name
    is truthy and not a string (a number, [true], an array, an object).
    Both implementations. *)
Theorem profile_refused (raw json : value)
    (Hjson : JSON_parse raw = Ok json) :
  let full_name := section_field json "full_name" in
  (nullish json = true ->
   C.parseProfile raw = Throw TypeError
   /\ L.parseProfile raw = Throw TypeError)
  /\ (nullish json = false ->
      truthy full_name = true -> is_string full_name = false ->
      C.parseProfile raw = Throw TypeError
      /\ L.parseProfile raw = Throw TypeError)
  /\ (nullish json = false ->
      truthy full_name = false \/ is_string full_name = true ->
      exists profile,
        C.parseProfile raw = Ok profile /\ L.parseProfile raw = Ok profile).
Proof.
  cbv zeta. change (L.parseProfile raw) with (C.parseProfile raw).
  rewrite parseProfile_cases, Hjson. cbn [bind]. unfold profile_cases.
  split; [|split].
  - intros ->. split; reflexivity.
  - intros -> Ht Hs.
    destruct (section_field json "full_name"); cbn [is_string] in Hs;
      try discriminate; rewrite Ht; split; reflexivity.
  - intros -> Hcase.
    destruct (section_field json "full_name") as [| |b|n|s|l|props];
      cbn [truthy is_string] in *; eauto.
    + destruct Hcase as [->|]; [eauto | discriminate].
    + destruct Hcase as [->|]; [eauto | discriminate].
    + destruct (s =? ""); eauto.
    + destruct Hcase; discriminate.
    + destruct Hcase; discriminate.
Qed.

(** X11.  In every profile that is built, displayName and name.givenName
    are strings and name.familyName is a string or is absent; neither name
    part contains a space, and givenName is the beginning of displayName.
    familyName is absent exactly when displayName is not empty and has no
    space, and then givenName is the whole displayName. *)
Theorem name_parts_shape (raw profile : value)
    (Hbuilt : C.parseProfile raw = Ok profile) :
  exists d g,
    path profile ["displayName"] = Ok (VString d)
    /\ path profile ["name"; "givenName"] = Ok (VString g)
    /\ has_space g = false
    /\ (exists tail, d = g ++ tail)
    /\ ((path profile ["name"; "familyName"] = Ok VUndefined
         /\ d <> "" /\ has_space d = false /\ g = d)
        \/ (exists f,
               path profile ["name"; "familyName"] = Ok (VString f)
               /\ has_space f = false
               /\ (d = "" \/ has_space d = true))).
Proof.
  destruct (parseProfile_built raw profile Hbuilt)
    as (json & d & f & g & _ & _ & -> & Hnames).
  destruct Hnames as [(_ & -> & -> & ->) | (s & _ & Hs & -> & -> & ->)].
  - exists "", "". repeat (split; [reflexivity|]).
    split; [exists ""; reflexivity|].
    right. exists "". auto.
  - exists s, (before_space s). repeat (split; [reflexivity|]).
    split; [apply before_space_no_space|].
    pose proof (after_space_has_space s) as Hafter. unfold second_piece.
    destruct (after_space s) as [rest|]; destruct Hafter as (Hh & Hd).
    + split; [exists (" " ++ rest); exact Hd|].
      right. exists (before_space rest).
      split; [reflexivity|]. split; [apply before_space_no_space | auto].
    + split; [exists ""; now rewrite Hd, append_empty_right|].
      left. auto.
Qed.

(** X12.  When the display name of a built profile has a space, it reads
    givenName, a space, familyName, and then nothing or a further space and
    more text; so given and family name put together with a space give
    back the display name exactly when it has a single space. *)
Theorem name_recomposes (raw profile : value) (d : string)
    (Hbuilt : C.parseProfile raw = Ok profile)
    (Hdisplay : path profile ["displayName"] = Ok (VString d))
    (Hspace : has_space d = true) :
  exists g f tail,
    path profile ["name"; "givenName"] = Ok (VString g)
    /\ path profile ["name"; "familyName"] = Ok (VString f)
    /\ d = g ++ " " ++ f ++ tail
    /\ (exists rest, after_space d = Some rest
                     /\ (has_space rest = false -> tail = "")
                     /\ (has_space rest = true ->
                         exists more, tail = " " ++ more)).
Proof.
  destruct (parseProfile_built raw profile Hbuilt)
    as (json & d' & f & g & _ & _ & -> & Hnames).
  destruct Hnames as [(_ & -> & -> & ->) | (s & _ & Hs & -> & -> & ->)];
    cbn in Hdisplay; injection Hdisplay as <-; [discriminate|].
  pose proof (after_space_has_space s) as Hafter. unfold second_piece.
  destruct (after_space s) as [rest|]; destruct Hafter as (Hh & Hd);
    [|congruence].
  pose proof (after_space_has_space rest) as Hrest.
  destruct (after_space rest) as [more|]; destruct Hrest as (Hh2 & Hd2).
  - exists (before_space s), (before_space rest), (" " ++ more).
    repeat (split; [reflexivity|]). split; [now rewrite <- Hd2|].
    exists rest. split; [reflexivity|]. split; [congruence | eauto].
  - exists (before_space s), (before_space rest), "".
    repeat (split; [reflexivity|]).
    split; [now rewrite append_empty_right, Hd2|].
    exists rest. split; [reflexivity|]. split; [auto | congruence].
Qed.

(** X13.  A full name that is absent, [null], empty, [0] or [false] gives a
    profile whose displayName, name.givenName and name.familyName are all
    the empty string. *)
Theorem falsy_full_name_empty_names (raw json : value)
    (Hjson : JSON_parse raw = Ok json)
    (Hvalue : nullish json = false)
    (Hfalsy : truthy (section_field json "full_name") = false) :
  exists profile,
    C.parseProfile raw = Ok profile
    /\ L.parseProfile raw = Ok profile
    /\ path profile ["displayName"] = Ok (VString "")
    /\ path profile ["name"; "givenName"] = Ok (VString "")
    /\ path profile ["name"; "familyName"] = Ok (VString "").
Proof.
  change (L.parseProfile raw) with (C.parseProfile raw).
  rewrite parseProfile_cases, Hjson. cbn [bind]. unfold profile_cases.
  rewrite Hvalue.
  destruct (section_field json "full_name") as [| |b|n|s|l|props];
    cbn [truthy] in *; try discriminate; rewrite ?Hfalsy;
    try (eexists; repeat split; reflexivity).
  apply negb_false_iff in Hfalsy. rewrite Hfalsy.
  eexists; repeat split; reflexivity.
Qed.

End BuiltProfiles.

Lemma profile_fixed_parts_witness :
  exists profile,
    @C.parseProfile JsonText.runtime (VString JsonText.example_body)
    = Ok profile
    /\ path profile ["_raw"] = Ok (VString JsonText.example_body)
    /\ path profile ["_json"] = Ok JsonText.example_json.
Proof.
  destruct (@C.parseProfile JsonText.runtime (VString JsonText.example_body))
    as [profile|] eqn:Hbuilt; [|vm_compute in Hbuilt; discriminate].
  destruct (@profile_fixed_parts JsonText.runtime _ profile Hbuilt)
    as (json & photo & Hjson & _ & _ & _ & _ & Hraw & Hj & _).
  exists profile. split; [reflexivity|]. split; [exact Hraw|].
  rewrite Hj. vm_compute in Hjson. injection Hjson as <-. reflexivity.
Defined.

Lemma profile_refused_witness :
  @C.parseProfile JsonText.runtime
     (VString ("{" ++ JsonText.q "full_name" ++ ":42}"))
  = Throw TypeError.
Proof.
  destruct (@profile_refused JsonText.runtime
              (VString ("{" ++ JsonText.q "full_name" ++ ":42}"))
              (VObject [("full_name", VNumber 42)])
              ltac:(vm_compute; reflexivity))
    as (_ & Hrefused & _).
  exact (proj1 (Hrefused eq_refl eq_refl eq_refl)).
Defined.

Lemma name_parts_shape_witness :
  exists profile d g,
    @C.parseProfile JsonText.runtime (VString (JsonText.named "Madonna"))
    = Ok profile
    /\ path profile ["displayName"] = Ok (VString d)
    /\ path profile ["name"; "givenName"] = Ok (VString g)
    /\ has_space g = false.
Proof.
  destruct (@C.parseProfile JsonText.runtime
              (VString (JsonText.named "Madonna")))
    as [profile|] eqn:Hbuilt; [|vm_compute in Hbuilt; discriminate].
  destruct (@name_parts_shape JsonText.runtime _ profile Hbuilt)
    as (d & g & Hd & Hg & Hspace & _).
  exists profile, d, g. auto.
Defined.

Lemma name_recomposes_witness :
  exists profile g f tail,
    @C.parseProfile JsonText.runtime (VString (JsonText.named "Ann Mary Lee"))
    = Ok profile
    /\ path profile ["name"; "givenName"] = Ok (VString g)
    /\ path profile ["name"; "familyName"] = Ok (VString f)
    /\ "Ann Mary Lee" = g ++ " " ++ f ++ tail.
Proof.
  destruct (@C.parseProfile JsonText.runtime
              (VString (JsonText.named "Ann Mary Lee")))
    as [profile|] eqn:Hbuilt; [|vm_compute in Hbuilt; discriminate].
  assert (Hdisplay : path profile ["displayName"]
                     = Ok (VString "Ann Mary Lee")).
  { vm_compute in Hbuilt. injection Hbuilt as <-. reflexivity. }
  destruct (@name_recomposes JsonText.runtime _ profile "Ann Mary Lee"
              Hbuilt Hdisplay eq_refl)
    as (g & f & tail & Hg & Hf & Hd & _).
  exists profile, g, f, tail. auto.
Defined.

Lemma falsy_full_name_empty_names_witness :
  exists profile,
    @C.parseProfile JsonText.runtime
       (VString ("{" ++ JsonText.q "full_name" ++ ":null}"))
    = Ok profile
    /\ path profile ["displayName"] = Ok (VString "").
Proof.
  destruct (@falsy_full_name_empty_names JsonText.runtime
              (VString ("{" ++ JsonText.q "full_name" ++ ":null}"))
              (VObject [("full_name", VNull)])
              ltac:(vm_compute; reflexivity) eq_refl eq_refl)
    as (profile & Hc & _ & Hd & _).
  exists profile. auto.
Defined.

(** ** What done receives *)

Section Done.
Context {rt : Runtime}.

(** X14.  Whatever the transport answers, userProfile calls [done] with
    arguments [(e, p)] of one of two kinds, never with both an error and a
    profile: [e] is [null] and [p] is the profile built from the body, when
    the transport reported no error and the try block did not throw; or [p]
    is absent and [e] is an InternalOAuthError (the transport reported an
    error) or what the try block threw.  Both implementations. *)
Theorem done_error_or_profile (selfC : C.Strategy) (selfL : L.Strategy)
    (accessToken error raw res : value) :
  (exists e p,
      (forall (R : Type) (done : value -> value -> R),
          @C.userProfile R (answering error raw res) rt selfC accessToken done
          = done e p)
      /\ ((e = VNull /\ truthy error = false /\ C.parseProfile raw = Ok p)
          \/ (p = VUndefined
              /\ (truthy error = true ->
                  exists message detail,
                    e = InternalOAuthError message detail)
              /\ (truthy error = false -> C.parseProfile raw = Throw e))))
  /\ (exists e p,
         (forall (R : Type) (done : value -> value -> R),
             @L.userProfile R (answering error raw res) rt selfL accessToken
                            done
             = done e p)
         /\ ((e = VNull /\ truthy error = false /\ L.parseProfile raw = Ok p)
             \/ (p = VUndefined
                 /\ (truthy error = true ->
                     e = InternalOAuthError
                           (VString "Failed to fetch user profile") error)
                 /\ (truthy error = false -> L.parseProfile raw = Throw e)))).
Proof.
  split.
  - destruct (truthy error) eqn:Herror.
    + destruct (diagnostics error) as [w|x] eqn:Hd.
      * exists w, VUndefined. split.
        { intros R done. unfold C.userProfile. cbn [_oauth2_get answering].
          now rewrite class_fetched_error, Hd. }
        right. split; [reflexivity|]. split; [|discriminate].
        intros _. exact (diagnostics_wrapped _ _ Hd).
      * exists (uniform_wrap error), VUndefined. split.
        { intros R done. unfold C.userProfile. cbn [_oauth2_get answering].
          now rewrite class_fetched_error, Hd. }
        right. split; [reflexivity|]. split; [|discriminate].
        intros _. unfold uniform_wrap. eauto.
    + destruct (C.parseProfile raw) as [p|x] eqn:Hp.
      * exists VNull, p. split; [|left; auto].
        intros R done. unfold C.userProfile. cbn [_oauth2_get answering].
        now rewrite class_fetched_success, Hp.
      * exists x, VUndefined. split.
        { intros R done. unfold C.userProfile. cbn [_oauth2_get answering].
          now rewrite class_fetched_success, Hp. }
        right. split; [reflexivity|]. split; [discriminate | reflexivity].
  - destruct (truthy error) eqn:Herror.
    + eexists _, VUndefined. split.
      { intros R done. unfold L.userProfile. cbn [_oauth2_get answering].
        unfold L.fetched. rewrite Herror. reflexivity. }
      right. split; [reflexivity|]. split; [reflexivity | discriminate].
    + destruct (L.parseProfile raw) as [p|x] eqn:Hp.
      * exists VNull, p. split; [|left; auto].
        intros R done. unfold L.userProfile. cbn [_oauth2_get answering].
        now rewrite legacy_fetched_success, Hp.
      * exists x, VUndefined. split.
        { intros R done. unfold L.userProfile. cbn [_oauth2_get answering].
          now rewrite legacy_fetched_success, Hp. }
        right. split; [reflexivity|]. split; [discriminate | reflexivity].
Qed.

End Done.
